(** * Competition dashboard: status classification, reshaping and views

    A shallow embedding of [tempCodeRunnerFile.py]: the load step that
    turns the CSV table into the long-form dataset (lines 6-26), the
    classifier [to_status], and the callback [render_view] (lines 74-119).

    Python text is a sequence of Unicode code points; a data frame is its
    column labels and its rows; frames live in a store and are named by
    references, because the script assigns columns in place. *)

From Stdlib Require Import List ZArith NArith Bool Lia String Ascii DecimalString.
Import ListNotations.

Set Implicit Arguments.

(* ================================================================== *)
(** ** Python text *)

Module PyStr.

Local Open Scope N_scope.

(** A [str] value: its code points, in order. *)
Definition pystr := list N.

(** A source literal written in ASCII. *)
Definition lit (s : string) : pystr :=
  map N_of_ascii (list_ascii_of_string s).

Fixpoint eqb (a b : pystr) : bool :=
  match a, b with
  | [], [] => true
  | x :: a', y :: b' => N.eqb x y && eqb a' b'
  | _, _ => false
  end.

(** [x in (a, b, c)]: equality with one of the tuple's elements. *)
Definition in_tuple (x : pystr) (tup : list pystr) : bool :=
  existsb (eqb x) tup.

Fixpoint startswith (p s : pystr) : bool :=
  match p, s with
  | [], _ => true
  | x :: p', y :: s' => N.eqb x y && startswith p' s'
  | _ :: _, [] => false
  end.

(** [p in s] on two strings: [p] occurs in [s] as a contiguous run. *)
Fixpoint str_in (p s : pystr) : bool :=
  startswith p s ||
  match s with
  | [] => false
  | _ :: s' => str_in p s'
  end.

(** The lowercase mapping of one code point.  It is the Unicode mapping
    on Basic Latin and Latin-1 Supplement (U+0000..U+00FF) and on the five
    code points above them whose lowercase form lands in that range
    (U+0130, U+0178, U+1E9E, U+212A, U+212B).  The remaining cased letters
    lowercase to code points above U+00FF and are kept as they are: every
    literal the script compares a lowercased text with lies below U+0100 or
    holds a letter that is itself uppercase. *)
Definition lower_cp (c : N) : list N :=
  if (65 <=? c) && (c <=? 90) then [c + 32]
  else if (192 <=? c) && (c <=? 222) && negb (c =? 215) then [c + 32]
  else if c =? 304 then [105; 775]
  else if c =? 376 then [255]
  else if c =? 7838 then [223]
  else if c =? 8490 then [107]
  else if c =? 8491 then [229]
  else [c].

(** [s.lower()] *)
Definition lower (s : pystr) : pystr := flat_map lower_cp s.

(** The code points [str.isspace] accepts, which [strip()] removes. *)
Definition isspace (c : N) : bool :=
  ((9 <=? c) && (c <=? 13)) || ((28 <=? c) && (c <=? 32))
  || (c =? 133) || (c =? 160) || (c =? 5760)
  || ((8192 <=? c) && (c <=? 8202))
  || (c =? 8232) || (c =? 8233) || (c =? 8239) || (c =? 8287)
  || (c =? 12288).

Fixpoint lstrip (s : pystr) : pystr :=
  match s with
  | [] => []
  | c :: s' => if isspace c then lstrip s' else s
  end.

Definition rstrip (s : pystr) : pystr := rev (lstrip (rev s)).

(** [s.strip()] *)
Definition strip (s : pystr) : pystr := rstrip (lstrip s).

(** Code-point order, the order [sorted] puts strings in. *)
Fixpoint leb (a b : pystr) : bool :=
  match a, b with
  | [], _ => true
  | _ :: _, [] => false
  | x :: a', y :: b' => (x <? y) || ((x =? y) && leb a' b')
  end.

Fixpoint insert_sorted (x : pystr) (l : list pystr) : list pystr :=
  match l with
  | [] => [x]
  | y :: l' => if leb x y then x :: l else y :: insert_sorted x l'
  end.

(** [sorted(l)] on a list of strings. *)
Definition sorted (l : list pystr) : list pystr :=
  fold_right insert_sorted [] l.

End PyStr.

Import PyStr.

(* ================================================================== *)
(** ** Cell values *)

(** What a cell of the frame can hold after [read_csv]: text, the float
    NaN of an empty cell, an integer, a boolean, or another float (carried
    as the text [str] prints for it); [None] is not produced by the reader
    but the classifier accepts it like any object. *)
Inductive pyval : Type :=
| VStr (s : pystr)
| VNaN
| VNone
| VInt (z : Z)
| VBool (b : bool)
| VFloat (shown : pystr).

(** [str(v)] *)
Definition str (v : pyval) : pystr :=
  match v with
  | VStr s => s
  | VNaN => lit "nan"
  | VNone => lit "None"
  | VInt z => lit (NilZero.string_of_int (Z.to_int z))
  | VBool true => lit "True"
  | VBool false => lit "False"
  | VFloat shown => shown
  end.

(** [a or b] on strings: the empty string is falsy. *)
Definition str_or (a b : pystr) : pystr :=
  match a with
  | [] => b
  | _ :: _ => a
  end.

(* ================================================================== *)
(** ** The classifier (lines 17-25) *)

(** The third element of the tuple on line 19, the text "n/a" with a
    fraction slash read in the wrong encoding: n, U+201A, U+00C5, U+00D1, a. *)
Definition na_misread : pystr := [110; 8218; 197; 209; 97]%N.

(** The text the rules look at: [(str(text) or "").lower()]. *)
Definition normalized (text : pyval) : pystr :=
  lower (str_or (str text) []).

Definition to_status (text : pyval) : pystr :=
  let t := normalized text in
  if in_tuple t [lit "na"; lit "n/a"; na_misread] then lit "na"
  else if str_in (lit "need to request") t then lit "no"
  else if str_in (lit "primarily") t || str_in (lit "missing") t
          || str_in (lit "lacks") t || str_in (lit "for users who can read") t
       then lit "partial"
  else lit "yes".

(* ================================================================== *)
(** ** Frames, the store and exceptions *)

Definition isnull (v : pyval) : bool :=
  match v with
  | VNaN | VNone => true
  | _ => false
  end.

Definition notnull (v : pyval) : bool := negb (isnull v).

(** [a == b] on cell values; NaN is equal to nothing, itself included. *)
Definition pyval_eqb (a b : pyval) : bool :=
  match a, b with
  | VStr s, VStr s' => PyStr.eqb s s'
  | VInt z, VInt z' => Z.eqb z z'
  | VBool x, VBool x' => Bool.eqb x x'
  | VFloat s, VFloat s' => PyStr.eqb s s'
  | VNone, VNone => true
  | _, _ => false
  end.

(** A frame as the script uses it: the column labels and the rows, each row
    holding one cell per column. *)
Record DataFrame : Type := {
  columns : list pystr;
  rows : list (list pyval)
}.

Inductive exn : Type :=
| KeyError (label : pystr)
| AttributeError
| ValueError.

Inductive outcome (A : Type) : Type :=
| Returns (a : A)
| Raises (e : exn).

Arguments Raises {A} e.

(** Frames are objects: a name holds a reference, and [df[c] = ...] writes
    through it.  [df] is the module-level name of the script. *)
Definition ref := nat.

Record store : Type := {
  frames : list DataFrame;
  df : ref
}.

Definition M (A : Type) : Type := store -> outcome A * store.

Definition ret {A} (a : A) : M A := fun st => (Returns a, st).

Definition raise {A} (e : exn) : M A := fun st => (Raises e, st).

(** A step that only reads: its outcome, the store as it was. *)
Definition lift {A} (o : outcome A) : M A := fun st => (o, st).

Definition bind {A B} (m : M A) (k : A -> M B) : M B :=
  fun st =>
    match m st with
    | (Returns a, st') => k a st'
    | (Raises e, st') => (Raises e, st')
    end.

Notation "x <- m ;; k" := (bind m (fun x => k))
  (at level 61, m at next level, right associativity).
Notation "m ;;; k" := (bind m (fun _ => k))
  (at level 61, right associativity).

Definition empty_frame : DataFrame := {| columns := []; rows := [] |}.

Definition deref (r : ref) : M DataFrame :=
  fun st => (Returns (nth r (frames st) empty_frame), st).

(** A new object: it gets the next reference. *)
Definition alloc (d : DataFrame) : M ref :=
  fun st => (Returns (List.length (frames st)),
             {| frames := frames st ++ [d]; df := df st |}).

Fixpoint replace_nth {A} (i : nat) (x : A) (l : list A) : list A :=
  match l, i with
  | [], _ => []
  | _ :: l', O => x :: l'
  | y :: l', S i' => y :: replace_nth i' x l'
  end.

Definition write (r : ref) (d : DataFrame) : M unit :=
  fun st => (Returns tt,
             {| frames := replace_nth r d (frames st); df := df st |}).

(** Rebinding the module-level name: [df = ...]. *)
Definition bind_df (r : ref) : M unit :=
  fun st => (Returns tt, {| frames := frames st; df := r |}).

Definition get_df : M ref := fun st => (Returns (df st), st).

(** Position of a label among the columns. *)
Fixpoint col_index (c : pystr) (cols : list pystr) : option nat :=
  match cols with
  | [] => None
  | c' :: cols' =>
      if PyStr.eqb c c' then Some O
      else option_map S (col_index c cols')
  end.

(** [c in df.columns] *)
Definition has_column (d : DataFrame) (c : pystr) : bool :=
  match col_index c (columns d) with
  | Some _ => true
  | None => false
  end.

Definition cell (i : nat) (row : list pyval) : pyval := nth i row VNaN.

(** [df[c]]: the values of a column, or [KeyError]. *)
Definition getitem (r : ref) (c : pystr) : M (list pyval) :=
  d <- deref r ;;
  match col_index c (columns d) with
  | Some i => ret (map (cell i) (rows d))
  | None => raise (KeyError c)
  end.

(** Pairs each row with the value assigned to it; a row the series has no
    value for gets NaN. *)
Fixpoint zip_rows (f : list pyval -> pyval -> list pyval)
    (rs : list (list pyval)) (vals : list pyval) : list (list pyval) :=
  match rs with
  | [] => []
  | row :: rs' =>
      match vals with
      | [] => f row VNaN :: zip_rows f rs' []
      | v :: vals' => f row v :: zip_rows f rs' vals'
      end
  end.

Definition set_column (d : DataFrame) (c : pystr) (vals : list pyval)
  : DataFrame :=
  match col_index c (columns d) with
  | Some i =>
      {| columns := columns d;
         rows := zip_rows (fun row v => replace_nth i v row) (rows d) vals |}
  | None =>
      {| columns := columns d ++ [c];
         rows := zip_rows (fun row v => row ++ [v]) (rows d) vals |}
  end.

(** [df[c] = vals]: the frame behind the reference is changed in place; an
    existing column keeps its position, a new one goes last. *)
Definition setitem (r : ref) (c : pystr) (vals : list pyval) : M unit :=
  d <- deref r ;;
  write r (set_column d c vals).

(** The [.str] accessor is refused on a column that is not text.  A column
    read from a CSV file is text exactly when it has no row or some cell of
    it is text; then the string methods map text cells and leave NaN
    everywhere else. *)
Definition is_text (v : pyval) : bool :=
  match v with
  | VStr _ => true
  | _ => false
  end.

Definition is_text_column (col : list pyval) : bool :=
  match col with
  | [] => true
  | _ :: _ => existsb is_text col
  end.

Definition str_accessor (col : list pyval) : M unit :=
  if is_text_column col then ret tt else raise AttributeError.

Definition str_method (f : pystr -> pystr) (v : pyval) : pyval :=
  match v with
  | VStr s => VStr (f s)
  | _ => VNaN
  end.

(** [col.str.lower()] *)
Definition str_lower (col : list pyval) : M (list pyval) :=
  str_accessor col ;;; ret (map (str_method lower) col).

(** [col.str.strip()] *)
Definition str_strip (col : list pyval) : M (list pyval) :=
  str_accessor col ;;; ret (map (str_method strip) col).

(* ================================================================== *)
(** ** Loading (lines 6-26) *)

(** The value columns of [melt]: every column that is not an id column,
    with its position. *)
Fixpoint value_vars (id : pystr) (i : nat) (cols : list pystr)
  : list (nat * pystr) :=
  match cols with
  | [] => []
  | c :: cols' =>
      if PyStr.eqb c id then value_vars id (S i) cols'
      else (i, c) :: value_vars id (S i) cols'
  end.

(** [df.melt(id_vars=["Feature"], var_name="Competitor", value_name="Notes")]:
    a new frame with one row per value column and input row, the value
    columns in their order and, within one, the rows in theirs.  [melt]
    (pandas 2) refuses a frame that already has a column called like the
    value column, then a frame without the id column. *)
Definition melt (r : ref) : M ref :=
  d <- deref r ;;
  if has_column d (lit "Notes") then raise ValueError
  else
    match col_index (lit "Feature") (columns d) with
    | None => raise (KeyError (lit "Feature"))
    | Some i =>
        alloc
          {| columns := [lit "Feature"; lit "Competitor"; lit "Notes"];
             rows :=
               flat_map
                 (fun jc : nat * pystr =>
                    map (fun row => [cell i row; VStr (snd jc); cell (fst jc) row])
                      (rows d))
                 (value_vars (lit "Feature") 0 (columns d)) |}
    end.

(** Lines 10-26, run once when the module is imported. *)
Definition load : M unit :=
  r <- get_df ;;
  d <- deref r ;;
  if has_column d (lit "Status") && has_column d (lit "Competitor") then
    status <- getitem r (lit "Status") ;;
    lowered <- str_lower status ;;
    stripped <- str_strip lowered ;;
    setitem r (lit "Status") stripped
  else
    long <- melt r ;;
    bind_df long ;;;
    notes <- getitem long (lit "Notes") ;;
    setitem long (lit "Status") (map (fun v => VStr (to_status v)) notes).

(** [df = pd.read_csv(DATA_PATH)] followed by the load: the table read from
    the file is the first object of the store. *)
Definition startup (table : DataFrame) : outcome unit * store :=
  load {| frames := [table]; df := 0 |}.

(** The dataset the dashboard serves after a successful start. *)
Definition dataset (st : store) : DataFrame := nth (df st) (frames st) empty_frame.

(* ================================================================== *)
(** ** The view callback (lines 74-119) *)

(** Whether a cell is one of the selected labels. *)
Definition is_in (values : list pystr) (v : pyval) : bool :=
  match v with
  | VStr s => existsb (PyStr.eqb s) values
  | _ => false
  end.

(** [col.isin(values)] *)
Definition isin (col : list pyval) (values : list pystr) : list bool :=
  map (is_in values) col.

(** [a & b] on two boolean columns of one frame. *)
Fixpoint and_mask (a b : list bool) : list bool :=
  match a, b with
  | x :: a', y :: b' => (x && y) :: and_mask a' b'
  | _, _ => []
  end.

Fixpoint select_rows (rs : list (list pyval)) (mask : list bool)
  : list (list pyval) :=
  match rs, mask with
  | row :: rs', keep :: mask' =>
      if keep then row :: select_rows rs' mask' else select_rows rs' mask'
  | _, _ => []
  end.

(** [df[mask]]: a new frame with the rows the mask keeps. *)
Definition getrows (r : ref) (mask : list bool) : M ref :=
  d <- deref r ;;
  alloc {| columns := columns d; rows := select_rows (rows d) mask |}.

(** [d.copy()] *)
Definition copy (r : ref) : M ref :=
  d <- deref r ;;
  alloc d.

(** A cross-tab: row labels, column labels and one row of cells per row
    label. *)
Record Pivot : Type := {
  index : list pyval;
  pcolumns : list pyval;
  pvalues : list (list pyval)
}.

Definition record : Type := pyval * pyval * pyval.

Definition r_index (x : record) : pyval := fst (fst x).
Definition r_column (x : record) : pyval := snd (fst x).
Definition r_value (x : record) : pyval := snd x.

Definition same_key (f c : pyval) (x : record) : bool :=
  pyval_eqb (r_index x) f && pyval_eqb (r_column x) c.

(** The values of the group of key (f, c), in frame order. *)
Definition group (recs : list record) (f c : pyval) : list pyval :=
  map r_value (filter (same_key f c) recs).

(** [aggfunc="first"]: the first value of the group that is not null. *)
Definition first (g : list pyval) : pyval := hd VNaN (filter notnull g).

Fixpoint dedup (l : list pyval) : list pyval :=
  match l with
  | [] => []
  | x :: l' => x :: filter (fun y => negb (pyval_eqb x y)) (dedup l')
  end.

(** The groups [pivot_table] keeps: a null key is left out of the grouping
    and a group whose aggregate is null is dropped. *)
Definition kept (recs : list record) : list record :=
  filter (fun x => notnull (r_index x) && notnull (r_column x)
                   && notnull (first (group recs (r_index x) (r_column x))))
         recs.

(** The cross-tab of the records.  Pandas orders its labels; the model
    keeps them in order of appearance, since both axes are reindexed on
    the line that follows each call. *)
Definition pivot_of (recs : list record) : Pivot :=
  let idx := dedup (map r_index (kept recs)) in
  let cols := dedup (map r_column (kept recs)) in
  {| index := idx;
     pcolumns := cols;
     pvalues := map (fun f => map (fun c => first (group recs f c)) cols) idx |}.

(** The cross-tab of a frame, with [KeyError] for a column it lacks; the
    values column is looked up first, then the two keys. *)
Definition pivot_frame (d : DataFrame) (i c v : pystr) : outcome Pivot :=
  match col_index v (columns d) with
  | None => Raises (KeyError v)
  | Some kv =>
      match col_index i (columns d) with
      | None => Raises (KeyError i)
      | Some ki =>
          match col_index c (columns d) with
          | None => Raises (KeyError c)
          | Some kc =>
              Returns
                (pivot_of (map (fun row => (cell ki row, cell kc row, cell kv row))
                               (rows d)))
          end
      end
  end.

(** [d.pivot_table(index=i, columns=c, values=v, aggfunc="first")] *)
Definition pivot_table (r : ref) (i c v : pystr) : M Pivot :=
  d <- deref r ;;
  lift (pivot_frame d i c v).

Fixpoint label_index (l : pyval) (labels : list pyval) : option nat :=
  match labels with
  | [] => None
  | l' :: labels' =>
      if pyval_eqb l' l then Some O else option_map S (label_index l labels')
  end.

(** [p.reindex(labels, axis=0)]: the rows in the order of [labels], a row
    of NaN for a label the cross-tab does not have. *)
Definition reindex_rows (p : Pivot) (labels : list pystr) : Pivot :=
  {| index := map VStr labels;
     pcolumns := pcolumns p;
     pvalues :=
       map (fun l => match label_index (VStr l) (index p) with
                     | Some k => nth k (pvalues p) []
                     | None => map (fun _ => VNaN) (pcolumns p)
                     end) labels |}.

(** [p.reindex(labels, axis=1)] *)
Definition reindex_columns (p : Pivot) (labels : list pystr) : Pivot :=
  {| index := index p;
     pcolumns := map VStr labels;
     pvalues :=
       map (fun row =>
              map (fun l => match label_index (VStr l) (pcolumns p) with
                            | Some k => cell k row
                            | None => VNaN
                            end) labels)
           (pvalues p) |}.

(** A Python dict as its items in insertion order; assigning an existing
    key keeps the key's place. *)
Fixpoint dict_set (k v : pyval) (d : list (pyval * pyval))
  : list (pyval * pyval) :=
  match d with
  | [] => [(k, v)]
  | (k', v') :: d' =>
      if pyval_eqb k' k then (k', v) :: d' else (k', v') :: dict_set k v d'
  end.

Fixpoint zip {A B} (a : list A) (b : list B) : list (A * B) :=
  match a, b with
  | x :: a', y :: b' => (x, y) :: zip a' b'
  | _, _ => []
  end.

(** [{"Feature": idx, **row.dropna().to_dict()}] *)
Definition row_dict (cols : list pyval) (idx : pyval) (row : list pyval)
  : list (pyval * pyval) :=
  fold_left (fun d kv => if notnull (snd kv) then dict_set (fst kv) (snd kv) d else d)
            (zip cols row)
            [(VStr (lit "Feature"), idx)].

Definition score_map : list (pystr * Z) :=
  [(lit "yes", 3%Z); (lit "partial", 2%Z); (lit "no", 1%Z); (lit "na", 0%Z)].

Fixpoint dict_get (k : pystr) (d : list (pystr * Z)) : option Z :=
  match d with
  | [] => None
  | (k', v) :: d' => if PyStr.eqb k' k then Some v else dict_get k d'
  end.

(** [col.map(d)] with a dict: a value that is not a key gives NaN.  The
    scores are kept as integers; pandas holds them as floats of the same
    value. *)
Definition map_dict (d : list (pystr * Z)) (v : pyval) : pyval :=
  match v with
  | VStr s => match dict_get s d with
              | Some z => VInt z
              | None => VNaN
              end
  | _ => VNaN
  end.

(** [col.fillna(x)] *)
Definition fillna (x : pyval) (col : list pyval) : list pyval :=
  map (fun v => if isnull v then x else v) col.

(** What the callback returns: the prompt, the table (its column ids and
    its row dicts) or the graph of the score cross-tab. *)
Inductive view : Type :=
| Div (text : pystr)
| DataTable (cols : list pyval) (data : list (list (pyval * pyval)))
| Graph (heat : Pivot).

(** [not x] on a dropdown value: [None] and the empty list are falsy. *)
Definition is_falsy (sel : option (list pystr)) : bool :=
  match sel with
  | None | Some [] => true
  | Some (_ :: _) => false
  end.

Definition chosen (sel : option (list pystr)) : list pystr :=
  match sel with
  | Some l => l
  | None => []
  end.

Definition render_view (competitors features : option (list pystr))
    (mode : pystr) : M view :=
  if is_falsy competitors || is_falsy features then
    ret (Div (lit "Please select at least one competitor and one feature."))
  else
    r <- get_df ;;
    ccol <- getitem r (lit "Competitor") ;;
    fcol <- getitem r (lit "Feature") ;;
    sel <- getrows r (and_mask (isin ccol (chosen competitors))
                               (isin fcol (chosen features))) ;;
    dff <- copy sel ;;
    if PyStr.eqb mode (lit "table") then
      wide <- pivot_table dff (lit "Feature") (lit "Competitor") (lit "Status") ;;
      let wide := reindex_columns (reindex_rows wide (sorted (chosen features)))
                                  (sorted (chosen competitors)) in
      ret (DataTable (VStr (lit "Feature") :: pcolumns wide)
                     (map (fun ir => row_dict (pcolumns wide) (fst ir) (snd ir))
                          (zip (index wide) (pvalues wide))))
    else
      status <- getitem dff (lit "Status") ;;
      setitem dff (lit "score") (fillna (VInt 0) (map (map_dict score_map) status)) ;;;
      heat <- pivot_table dff (lit "Feature") (lit "Competitor") (lit "score") ;;
      ret (Graph (reindex_columns (reindex_rows heat (sorted (chosen features)))
                                  (sorted (chosen competitors)))).

(* ================================================================== *)
(** ** The classification rules as the specification lists them *)

(** [p] occurs in [t] as a substring. *)
Definition Occurs (p t : pystr) : Prop := exists a b, t = a ++ p ++ b.

Inductive rule : Type := Rule_na | Rule_no | Rule_partial | Rule_yes.

(** When a rule applies to a normalized text. *)
Definition matches (r : rule) (t : pystr) : Prop :=
  match r with
  | Rule_na => t = lit "na" \/ t = lit "n/a" \/ t = na_misread
  | Rule_no => Occurs (lit "need to request") t
  | Rule_partial =>
      Occurs (lit "primarily") t \/ Occurs (lit "missing") t
      \/ Occurs (lit "lacks") t \/ Occurs (lit "for users who can read") t
  | Rule_yes => True
  end.




(** The four statuses. *)
Definition statuses : list pystr :=
  [lit "yes"; lit "partial"; lit "no"; lit "na"].

(* ================================================================== *)
(** ** Vocabulary for the statements on loading *)

(** The branch of line 10. *)
Definition long_form (t : DataFrame) : bool :=
  has_column t (lit "Status") && has_column t (lit "Competitor").

(** The cells of a column, nothing when the frame has no such column. *)
Definition column (t : DataFrame) (c : pystr) : list pyval :=
  match col_index c (columns t) with
  | Some i => map (cell i) (rows t)
  | None => []
  end.


(** The competitor columns of a wide table, each with its position. *)
Definition competitor_columns (t : DataFrame) : list (nat * pystr) :=
  value_vars (lit "Feature") 0 (columns t).

(** The record of the dataset made from one row and one competitor column
    of the wide table: Feature, Competitor, Notes, Status. *)
Definition comparison_record (i : nat) (jc : nat * pystr) (row : list pyval)
  : list pyval :=
  [cell i row; VStr (snd jc); cell (fst jc) row;
   VStr (to_status (cell (fst jc) row))].

(* ================================================================== *)
(** ** Vocabulary for the statements on views *)

(** The cell of a row under a column label. *)
Definition cell_of (d : DataFrame) (c : pystr) (row : list pyval) : pyval :=
  match col_index c (columns d) with
  | Some i => cell i row
  | None => VNaN
  end.

(** The comparison records of a dataset, in row order: Feature,
    Competitor, Status. *)
Definition records (d : DataFrame) : list record :=
  map (fun row => (cell_of d (lit "Feature") row,
                   cell_of d (lit "Competitor") row,
                   cell_of d (lit "Status") row))
      (rows d).

(** Every row has one cell per column. *)
Definition rectangular (d : DataFrame) : Prop :=
  Forall (fun row => List.length row = List.length (columns d)) (rows d).

(** The score table of the specification; any other Status scores 0. *)
Definition score (status : pyval) : Z :=
  if pyval_eqb status (VStr (lit "yes")) then 3
  else if pyval_eqb status (VStr (lit "partial")) then 2
  else if pyval_eqb status (VStr (lit "no")) then 1
  else 0.

(** The score of the first record of a pair, NaN when the pair has no
    record. *)
Definition score_cell (recs : list record) (f c : pystr) : pyval :=
  match find (same_key (VStr f) (VStr c)) recs with
  | Some x => VInt (score (r_value x))
  | None => VNaN
  end.

(** The Status of the first record of a pair that has one, NaN when there
    is none. *)
Definition status_cell (recs : list record) (f c : pystr) : pyval :=
  match find (fun x => same_key (VStr f) (VStr c) x && notnull (r_value x)) recs with
  | Some x => r_value x
  | None => VNaN
  end.

(* ================================================================== *)
(** ** Sample tables *)

(** A wide table: two features, two competitors. *)
Definition wide_sample : DataFrame :=
  {| columns := [lit "Feature"; lit "Acme"; lit "Bolt"];
     rows :=
       [[VStr (lit "SSO"); VStr (lit "Primarily for users who can read SAML docs");
         VNaN];
        [VStr (lit "API"); VStr (lit "N/A");
         VStr (lit "Need to request via support ticket")]] |}.

(** A long-form table, already normalized. *)
Definition long_sample : DataFrame :=
  {| columns := [lit "Feature"; lit "Competitor"; lit "Status"];
     rows :=
       [[VStr (lit "SSO"); VStr (lit "Acme"); VStr (lit "partial")];
        [VStr (lit "API"); VStr (lit "Bolt"); VStr (lit "yes")]] |}.

(** A long-form table in which the pair (SSO, Acme) comes twice. *)
Definition long_duplicates : DataFrame :=
  {| columns := [lit "Feature"; lit "Competitor"; lit "Status"];
     rows :=
       [[VStr (lit "SSO"); VStr (lit "Acme"); VStr (lit "partial")];
        [VStr (lit "API"); VStr (lit "Bolt"); VStr (lit "yes")];
        [VStr (lit "SSO"); VStr (lit "Acme"); VStr (lit "no")]] |}.

(** A long-form table that has no "Feature" column. *)
Definition long_without_feature : DataFrame :=
  {| columns := [lit "Competitor"; lit "Status"];
     rows := [[VStr (lit "Acme"); VStr (lit "Yes")]] |}.

(** A long-form table whose Status column holds numbers. *)
Definition long_numeric_status : DataFrame :=
  {| columns := [lit "Feature"; lit "Competitor"; lit "Status"];
     rows := [[VStr (lit "SSO"); VStr (lit "Acme"); VInt 1];
              [VStr (lit "API"); VStr (lit "Acme"); VInt 0]] |}.

(* ================================================================== *)
(** ** Vocabulary for further statements on the classifier *)

(** A text in which no code point is a small ASCII letter. *)
Definition letterless (t : pystr) : Prop :=
  Forall (fun c => (c < 97 \/ 122 < c)%N) t.

(* ================================================================== *)
(** ** Vocabulary for further statements on loading and views *)

(** A long-form table as it may come from a file: mixed case, blanks
    around the text, one Status that is a number. *)
Definition long_raw : DataFrame :=
  {| columns := [lit "Feature"; lit "Competitor"; lit "Status"];
     rows :=
       [[VStr (lit "SSO"); VStr (lit "Acme"); VStr (lit " Partial")];
        [VStr (lit "API"); VStr (lit "Bolt"); VStr (lit "YES ")];
        [VStr (lit "API"); VStr (lit "Acme"); VInt 1]] |}.

(** The value a dict holds for a key, if any. *)
Fixpoint dict_lookup (k : pyval) (d : list (pyval * pyval)) : option pyval :=
  match d with
  | [] => None
  | (k', v) :: d' => if pyval_eqb k' k then Some v else dict_lookup k d'
  end.


(** Line 28: the colour of each status in the table. *)
Definition STATUS_COLOR : list (pystr * pystr) :=
  [(lit "yes", lit "#22c55e"); (lit "partial", lit "#f59e0b");
   (lit "no", lit "#ef4444"); (lit "na", lit "#9ca3af")].

Fixpoint dict_get_str (k : pystr) (d : list (pystr * pystr)) : option pystr :=
  match d with
  | [] => None
  | (k', v) :: d' => if PyStr.eqb k' k then Some v else dict_get_str k d'
  end.

(** Line 113: the colours of the heatmap, from the lowest score up. *)
Definition color_continuous_scale : list pystr :=
  [lit "#9ca3af"; lit "#ef4444"; lit "#f59e0b"; lit "#22c55e"].

(* ================================================================== *)
(** ** Text: equality, substrings, lowercase *)

Lemma pystr_eqb_eq (a b : pystr) : PyStr.eqb a b = true <-> a = b.
Proof.
  revert b; induction a as [|x a IH]; intros [|y b]; simpl;
    try (split; [discriminate | congruence]).
  - split; reflexivity.
  - rewrite andb_true_iff, N.eqb_eq, IH. split.
    + intros [-> ->]; reflexivity.
    + intros H; injection H; auto.
Qed.

Lemma pystr_eqb_refl (a : pystr) : PyStr.eqb a a = true.
Proof. apply pystr_eqb_eq; reflexivity. Qed.

Lemma pystr_eqb_neq (a b : pystr) : PyStr.eqb a b = false <-> a <> b.
Proof.
  rewrite <- pystr_eqb_eq. destruct (PyStr.eqb a b); split; congruence.
Qed.

Lemma startswith_prefix (p s : pystr) :
  startswith p s = true <-> exists b, s = p ++ b.
Proof.
  revert s; induction p as [|x p IH]; intros s; simpl.
  - split; [intros _; exists s; reflexivity | reflexivity].
  - destruct s as [|y s].
    + split; [discriminate | intros [b Hb]; discriminate].
    + rewrite andb_true_iff, N.eqb_eq, IH. split.
      * intros [-> [b ->]]. exists b; reflexivity.
      * intros [b Hb]. injection Hb as -> ->. split; [reflexivity | exists b; reflexivity].
Qed.

Lemma str_in_occurs (p s : pystr) : str_in p s = true <-> Occurs p s.
Proof.
  unfold Occurs. induction s as [|y s IH].
  - simpl. rewrite orb_false_r, startswith_prefix. split.
    + intros [b Hb]. exists [], b. exact Hb.
    + intros [a [b Hab]]. destruct a; [exists b; exact Hab | discriminate].
  - change (str_in p (y :: s)) with (startswith p (y :: s) || str_in p s).
    rewrite orb_true_iff, startswith_prefix, IH. split.
    + intros [[b Hb] | [a [b Hab]]].
      * exists [], b. exact Hb.
      * exists (y :: a), b. simpl. rewrite Hab. reflexivity.
    + intros [a [b Hab]]. destruct a as [|z a].
      * left. exists b. exact Hab.
      * right. simpl in Hab. injection Hab as _ Hs. exists a, b. exact Hs.
Qed.

Lemma str_in_not_occurs (p s : pystr) : str_in p s = false <-> ~ Occurs p s.
Proof.
  rewrite <- str_in_occurs. destruct (str_in p s); split; congruence.
Qed.

Lemma normalized_lower (text : pyval) : normalized text = lower (str text).
Proof.
  unfold normalized, str_or. destruct (str text); reflexivity.
Qed.

(** Turns the boolean tests on code points in the context into
    propositions. *)
Ltac bool_to_prop :=
  repeat match goal with
         | H : andb _ _ = true |- _ => apply andb_true_iff in H; destruct H
         | H : andb _ _ = false |- _ => apply andb_false_iff in H; destruct H
         | H : negb _ = true |- _ => apply negb_true_iff in H
         | H : negb _ = false |- _ => apply negb_false_iff in H
         | H : N.leb _ _ = true |- _ => apply N.leb_le in H
         | H : N.leb _ _ = false |- _ => apply N.leb_gt in H
         | H : N.eqb _ _ = true |- _ => apply N.eqb_eq in H
         | H : N.eqb _ _ = false |- _ => apply N.eqb_neq in H
         end.

(** No code point has U+00C5 in its lowercase form: it is a capital. *)
Lemma lower_cp_no_capital_A_ring (c : N) : ~ In 197%N (lower_cp c).
Proof.
  unfold lower_cp.
  repeat match goal with
         | |- context [if ?b then _ else _] => destruct b eqn:?
         end; simpl; intros H;
    repeat match goal with
           | H : _ \/ _ |- _ => destruct H
           | H : False |- _ => destruct H
           end;
    bool_to_prop; lia.
Qed.

Lemma lower_no_capital_A_ring (s : pystr) : ~ In 197%N (lower s).
Proof.
  unfold lower. rewrite in_flat_map. intros [c [_ H]].
  exact (lower_cp_no_capital_A_ring c H).
Qed.

(** A lowercased text is never the misread literal of line 19, which has
    two capitals in it. *)
Lemma lower_not_na_misread (s : pystr) : lower s <> na_misread.
Proof.
  intros H. apply (lower_no_capital_A_ring s). rewrite H.
  unfold na_misread. simpl. auto.
Qed.

Lemma in_tuple_na (t : pystr) :
  in_tuple t [lit "na"; lit "n/a"; na_misread] = true
  <-> matches Rule_na t.
Proof.
  unfold in_tuple, matches. simpl existsb.
  rewrite !orb_true_iff, !pystr_eqb_eq. intuition discriminate.
Qed.

Lemma partial_words (t : pystr) :
  str_in (lit "primarily") t || str_in (lit "missing") t
  || str_in (lit "lacks") t || str_in (lit "for users who can read") t = true
  <-> matches Rule_partial t.
Proof.
  unfold matches. rewrite !orb_true_iff, !str_in_occurs. tauto.
Qed.

(** The classifier, one case per rule. *)
Lemma to_status_cases (text : pyval) :
  let t := normalized text in
  (matches Rule_na t /\ to_status text = lit "na")
  \/ (~ matches Rule_na t /\ matches Rule_no t /\ to_status text = lit "no")
  \/ (~ matches Rule_na t /\ ~ matches Rule_no t /\ matches Rule_partial t
      /\ to_status text = lit "partial")
  \/ (~ matches Rule_na t /\ ~ matches Rule_no t /\ ~ matches Rule_partial t
      /\ to_status text = lit "yes").
Proof.
  intros t. unfold to_status. fold t.
  destruct (in_tuple t [lit "na"; lit "n/a"; na_misread]) eqn:Hna.
  { left. split; [apply in_tuple_na; exact Hna | reflexivity]. }
  assert (Hna' : ~ matches Rule_na t).
  { rewrite <- in_tuple_na, Hna. discriminate. }
  destruct (str_in (lit "need to request") t) eqn:Hno.
  { right; left. repeat split; auto. apply str_in_occurs; exact Hno. }
  assert (Hno' : ~ matches Rule_no t).
  { apply str_in_not_occurs; exact Hno. }
  destruct (str_in (lit "primarily") t || str_in (lit "missing") t
            || str_in (lit "lacks") t || str_in (lit "for users who can read") t)
    eqn:Hp.
  { right; right; left. repeat split; auto. apply partial_words; exact Hp. }
  right; right; right. repeat split; auto.
  rewrite <- partial_words, Hp. discriminate.
Qed.

(* ================================================================== *)
(** ** Claims on the classifier *)


(** A text that matches the second and the third rule is classified by the
    second. *)
Example to_status_no_before_partial :
  to_status (VStr (lit "Missing docs: need to request access")) = lit "no".
Proof. reflexivity. Qed.

(** C2, as the code has it: [to_status] returns na exactly when the text,
    lowercased and not trimmed, is "na" or "n/a"; the letter case does not
    matter, surrounding whitespace does. *)
Theorem to_status_na_iff (text : pyval) :
  to_status text = lit "na"
  <-> lower (str text) = lit "na" \/ lower (str text) = lit "n/a".
Proof.
  rewrite <- normalized_lower.
  destruct (to_status_cases text) as [[H1 E] | [[H1 [_ E]] | [[H1 [_ [_ E]]] | [H1 [_ [_ E]]]]]];
    rewrite E; split; try discriminate;
    try (intros H; exfalso; apply H1; simpl; tauto).
  - intros _. destruct H1 as [H | [H | H]]; auto.
    rewrite normalized_lower in H. destruct (lower_not_na_misread _ H).
  - reflexivity.
Qed.

(** C2 as stated fails: with a blank on each side "NA" is classified yes,
    and so is a longer word that only contains "na". *)
Lemma to_status_padded_NA_is_yes :
  to_status (VStr (lit " NA ")) = lit "yes"
  /\ to_status (VStr (lit "banana")) = lit "yes"
  /\ lit "yes" <> lit "na".
Proof. repeat split; try reflexivity. discriminate. Qed.

(** The spellings of scenario 2 in either case. *)
Example to_status_NA_spellings :
  map (fun s => to_status (VStr (lit s))) ["NA"; "na"; "Na"; "N/A"; "n/a"; "n/A"]%string
  = [lit "na"; lit "na"; lit "na"; lit "na"; lit "na"; lit "na"].
Proof. reflexivity. Qed.

(** The misread spelling itself is not recognised: lowercasing turns its
    two capitals into small letters before the comparison of line 19. *)
Example to_status_misread_literal : to_status (VStr na_misread) = lit "yes".
Proof. reflexivity. Qed.

(** C10: [to_status] gives one of the four statuses for every cell value;
    a value that is not text is classified by what [str] prints for it, so
    NaN is read as "nan" (not as the empty text) and is classified yes,
    and so is None. *)
Theorem to_status_total (v : pyval) :
  In (to_status v) statuses
  /\ str VNaN = lit "nan"
  /\ str_or (str VNaN) [] <> []
  /\ to_status VNaN = lit "yes"
  /\ to_status VNone = lit "yes"
  /\ to_status v = to_status (VStr (str v)).
Proof.
  split; [|repeat split; try reflexivity; discriminate].
  unfold statuses.
  destruct (to_status_cases v) as [[_ E] | [[_ [_ E]] | [[_ [_ [_ E]]] | [_ [_ [_ E]]]]]];
    rewrite E; simpl; auto.
Qed.

(* ================================================================== *)
(** ** Running the store monad *)

Lemma zip_rows_map (f : list pyval -> pyval -> list pyval)
    (h : list pyval -> pyval) (rs : list (list pyval)) :
  zip_rows f rs (map h rs) = map (fun row => f row (h row)) rs.
Proof.
  induction rs as [|row rs IH]; simpl; [reflexivity | rewrite IH; reflexivity].
Qed.

Lemma zip_rows_map_cell (f : list pyval -> pyval -> list pyval)
    (h : pyval -> pyval) (i : nat) (rs : list (list pyval)) :
  zip_rows f rs (map h (map (cell i) rs))
  = map (fun row => f row (h (cell i row))) rs.
Proof.
  rewrite map_map. apply (zip_rows_map f (fun row => h (cell i row))).
Qed.


Lemma has_column_index (d : DataFrame) (c : pystr) :
  has_column d c = true <-> exists i, col_index c (columns d) = Some i.
Proof.
  unfold has_column. destruct (col_index c (columns d)) as [i|].
  - split; [intros _; exists i; reflexivity | reflexivity].
  - split; [discriminate | intros [i Hi]; discriminate].
Qed.

Lemma has_column_none (d : DataFrame) (c : pystr) :
  has_column d c = false <-> col_index c (columns d) = None.
Proof.
  unfold has_column. destruct (col_index c (columns d)); split; congruence.
Qed.

Lemma is_text_str_method (f : pystr -> pystr) (v : pyval) :
  is_text (str_method f v) = is_text v.
Proof. destruct v; reflexivity. Qed.

Lemma is_text_column_str_method (f : pystr -> pystr) (col : list pyval) :
  is_text_column (map (str_method f) col) = is_text_column col.
Proof.
  destruct col as [|v col]; [reflexivity|].
  unfold is_text_column. simpl map.
  change (existsb is_text (map (str_method f) (v :: col)) = existsb is_text (v :: col)).
  induction (v :: col) as [|x l IH]; simpl; [reflexivity|].
  rewrite is_text_str_method, IH. reflexivity.
Qed.

Lemma run_bind {A B} (m : M A) (k : A -> M B) (st : store) :
  bind m k st
  = match m st with
    | (Returns a, st') => k a st'
    | (Raises e, st') => (Raises e, st')
    end.
Proof. reflexivity. Qed.

Lemma run_get_df (st : store) : get_df st = (Returns (df st), st).
Proof. reflexivity. Qed.

Lemma run_deref (r : ref) (st : store) :
  deref r st = (Returns (nth r (frames st) empty_frame), st).
Proof. reflexivity. Qed.

Lemma run_alloc (d : DataFrame) (st : store) :
  alloc d st
  = (Returns (List.length (frames st)),
     {| frames := frames st ++ [d]; df := df st |}).
Proof. reflexivity. Qed.

Lemma run_bind_df (r : ref) (st : store) :
  bind_df r st = (Returns tt, {| frames := frames st; df := r |}).
Proof. reflexivity. Qed.

Lemma run_getitem (r : ref) (c : pystr) (st : store) :
  getitem r c st
  = match col_index c (columns (nth r (frames st) empty_frame)) with
    | Some i => (Returns (map (cell i) (rows (nth r (frames st) empty_frame))), st)
    | None => (Raises (KeyError c), st)
    end.
Proof.
  unfold getitem. rewrite run_bind, run_deref.
  destruct (col_index c (columns (nth r (frames st) empty_frame))); reflexivity.
Qed.

Lemma run_setitem (r : ref) (c : pystr) (vals : list pyval) (st : store) :
  setitem r c vals st
  = (Returns tt,
     {| frames := replace_nth r (set_column (nth r (frames st) empty_frame) c vals)
                              (frames st);
        df := df st |}).
Proof. reflexivity. Qed.

Lemma run_str_method (f : pystr -> pystr) (col : list pyval) (st : store) :
  (str_accessor col ;;; ret (map (str_method f) col)) st
  = if is_text_column col then (Returns (map (str_method f) col), st)
    else (Raises AttributeError, st).
Proof.
  rewrite run_bind. unfold str_accessor.
  destruct (is_text_column col); reflexivity.
Qed.

Lemma run_str_lower (col : list pyval) (st : store) :
  str_lower col st
  = if is_text_column col then (Returns (map (str_method lower) col), st)
    else (Raises AttributeError, st).
Proof. apply run_str_method. Qed.

Lemma run_str_strip (col : list pyval) (st : store) :
  str_strip col st
  = if is_text_column col then (Returns (map (str_method strip) col), st)
    else (Raises AttributeError, st).
Proof. apply run_str_method. Qed.

Lemma run_melt (r : ref) (st : store) :
  melt r st
  = let d := nth r (frames st) empty_frame in
    if has_column d (lit "Notes") then (Raises ValueError, st)
    else
      match col_index (lit "Feature") (columns d) with
      | None => (Raises (KeyError (lit "Feature")), st)
      | Some i =>
          (Returns (List.length (frames st)),
           {| frames :=
                frames st
                ++ [{| columns := [lit "Feature"; lit "Competitor"; lit "Notes"];
                       rows :=
                         flat_map
                           (fun jc : nat * pystr =>
                              map (fun row => [cell i row; VStr (snd jc); cell (fst jc) row])
                                  (rows d))
                           (value_vars (lit "Feature") 0 (columns d)) |}];
              df := df st |})
      end.
Proof.
  unfold melt. rewrite run_bind, run_deref. cbv zeta.
  destruct (has_column (nth r (frames st) empty_frame) (lit "Notes")); [reflexivity|].
  destruct (col_index (lit "Feature") (columns (nth r (frames st) empty_frame)));
    reflexivity.
Qed.

Lemma map_flat_map {A B C} (f : B -> C) (g : A -> list B) (l : list A) :
  map f (flat_map g l) = flat_map (fun x => map f (g x)) l.
Proof.
  induction l as [|x l IH]; simpl; [reflexivity|].
  rewrite map_app, IH. reflexivity.
Qed.

Lemma run_getrows (r : ref) (mask : list bool) (st : store) :
  getrows r mask st
  = (Returns (List.length (frames st)),
     {| frames :=
          frames st
          ++ [{| columns := columns (nth r (frames st) empty_frame);
                 rows := select_rows (rows (nth r (frames st) empty_frame)) mask |}];
        df := df st |}).
Proof. reflexivity. Qed.

Lemma run_copy (r : ref) (st : store) :
  copy r st
  = (Returns (List.length (frames st)),
     {| frames := frames st ++ [nth r (frames st) empty_frame]; df := df st |}).
Proof. reflexivity. Qed.

Lemma run_pivot_table (r : ref) (i c v : pystr) (st : store) :
  pivot_table r i c v st
  = (pivot_frame (nth r (frames st) empty_frame) i c v, st).
Proof. reflexivity. Qed.

(** One step of a computation in the store monad. *)
Ltac run_step :=
  rewrite run_bind;
  first [ rewrite run_get_df | rewrite run_deref | rewrite run_alloc
        | rewrite run_bind_df | rewrite run_getitem | rewrite run_setitem
        | rewrite run_str_lower | rewrite run_str_strip | rewrite run_melt
        | rewrite run_getrows | rewrite run_copy | rewrite run_pivot_table ];
  cbv beta iota zeta.

(** What the load does to the table, by branch. *)
Lemma startup_long (t : DataFrame) (i : nat) :
  long_form t = true ->
  col_index (lit "Status") (columns t) = Some i ->
  startup t
  = if is_text_column (column t (lit "Status")) then
      (Returns tt,
       {| frames :=
            [set_column t (lit "Status")
               (map (str_method strip)
                    (map (str_method lower) (column t (lit "Status"))))];
          df := 0 |})
    else (Raises AttributeError, {| frames := [t]; df := 0 |}).
Proof.
  intros Hlong Hi. unfold startup, load, column. rewrite Hi.
  do 2 run_step. cbn [frames df nth].
  unfold long_form in Hlong. rewrite Hlong.
  run_step. cbn [frames df nth]. rewrite Hi. cbv iota.
  run_step.
  destruct (is_text_column (map (cell i) (rows t))) eqn:Ht; [|reflexivity].
  run_step. rewrite is_text_column_str_method, Ht.
  rewrite run_setitem. reflexivity.
Qed.

Lemma startup_wide (t : DataFrame) :
  long_form t = false ->
  startup t
  = if has_column t (lit "Notes") then
      (Raises ValueError, {| frames := [t]; df := 0 |})
    else
      match col_index (lit "Feature") (columns t) with
      | None => (Raises (KeyError (lit "Feature")), {| frames := [t]; df := 0 |})
      | Some i =>
          (Returns tt,
           {| frames :=
                [t;
                 {| columns := [lit "Feature"; lit "Competitor"; lit "Notes"; lit "Status"];
                    rows := flat_map
                              (fun jc => map (comparison_record i jc) (rows t))
                              (competitor_columns t) |}];
              df := 1 |})
      end.
Proof.
  intros Hlong. unfold startup, load.
  do 2 run_step. cbn [frames df nth].
  unfold long_form in Hlong. rewrite Hlong.
  run_step. cbn [frames df nth].
  destruct (has_column t (lit "Notes")); [reflexivity|].
  destruct (col_index (lit "Feature") (columns t)) as [i|]; [|reflexivity].
  run_step. run_step.
  cbn [frames df nth List.length app columns rows].
  replace (col_index (lit "Notes") [lit "Feature"; lit "Competitor"; lit "Notes"])
    with (Some 2) by reflexivity.
  cbv beta iota zeta. rewrite run_setitem.
  cbn [frames df nth List.length app columns rows replace_nth].
  unfold set_column. cbn [columns rows].
  replace (col_index (lit "Status") [lit "Feature"; lit "Competitor"; lit "Notes"])
    with (@None nat) by reflexivity.
  rewrite (zip_rows_map_cell (fun row v => row ++ [v])
             (fun v => VStr (to_status v)) 2).
  rewrite map_flat_map. unfold competitor_columns.
  do 4 f_equal. cbn [app]. f_equal.
  apply flat_map_ext. intros jc. rewrite map_map. reflexivity.
Qed.

(* ================================================================== *)
(** ** Lists laid out in blocks *)

Lemma length_flat_map_map {A B C} (g : A -> B -> C) (l : list A) (rs : list B) :
  List.length (flat_map (fun x => map (g x) rs) l)
  = List.length l * List.length rs.
Proof.
  induction l as [|x l IH]; simpl; [reflexivity|].
  rewrite length_app, length_map, IH. reflexivity.
Qed.

Lemma nth_map_in_range {A B} (f : A -> B) (l : list A) (n : nat) (d : B) (d' : A) :
  n < List.length l -> nth n (map f l) d = f (nth n l d').
Proof.
  intros Hn. rewrite (nth_indep _ d (f d')) by (rewrite length_map; exact Hn).
  apply map_nth.
Qed.

Lemma nth_flat_map_map {A B C} (g : A -> B -> C) (l : list A) (rs : list B)
    (j a : nat) (d : C) (dl : A) (dr : B) :
  j < List.length l -> a < List.length rs ->
  nth (j * List.length rs + a) (flat_map (fun x => map (g x) rs) l) d
  = g (nth j l dl) (nth a rs dr).
Proof.
  revert j; induction l as [|x l IH]; intros j Hj Ha; simpl in Hj; [lia|].
  simpl flat_map. destruct j as [|j].
  - simpl. rewrite app_nth1 by (rewrite length_map; exact Ha).
    apply nth_map_in_range. exact Ha.
  - rewrite app_nth2 by (rewrite length_map; simpl; lia).
    rewrite length_map.
    replace (S j * List.length rs + a - List.length rs)
      with (j * List.length rs + a) by (simpl; lia).
    simpl nth. apply IH; [lia | exact Ha].
Qed.

Lemma value_vars_names (id : pystr) (k : nat) (cols : list pystr) :
  map snd (value_vars id k cols)
  = filter (fun c => negb (PyStr.eqb c id)) cols.
Proof.
  revert k; induction cols as [|c cols IH]; intros k; simpl; [reflexivity|].
  destruct (PyStr.eqb c id); simpl; rewrite IH; reflexivity.
Qed.

Lemma to_status_in_statuses (v : pyval) : In (to_status v) statuses.
Proof.
  unfold statuses.
  destruct (to_status_cases v) as [[_ E] | [[_ [_ E]] | [[_ [_ [_ E]]] | [_ [_ [_ E]]]]]];
    rewrite E; simpl; auto.
Qed.

(* ================================================================== *)
(** ** Claims on loading *)

(** C3, as the code has it: the outcome of the load for every table.  In
    the long-form branch no column is looked for, and the load fails only
    when the Status column is not text; in the wide-form branch [melt]
    refuses a table that has a column "Notes" and a table without
    "Feature".  The errors are pandas' own; the script defines none. *)
Theorem startup_outcome (t : DataFrame) :
  fst (startup t)
  = if long_form t then
      if is_text_column (column t (lit "Status")) then Returns tt
      else Raises AttributeError
    else if has_column t (lit "Notes") then Raises ValueError
    else if has_column t (lit "Feature") then Returns tt
    else Raises (KeyError (lit "Feature")).
Proof.
  destruct (long_form t) eqn:Hlong.
  - assert (Hs : has_column t (lit "Status") = true).
    { unfold long_form in Hlong. apply andb_true_iff in Hlong. tauto. }
    apply has_column_index in Hs. destruct Hs as [i Hi].
    rewrite (startup_long t Hlong Hi).
    destruct (is_text_column (column t (lit "Status"))); reflexivity.
  - rewrite (startup_wide t Hlong). unfold has_column.
    destruct (col_index (lit "Notes") (columns t)); [reflexivity|].
    destruct (col_index (lit "Feature") (columns t)); reflexivity.
Qed.

(** C3 as stated fails: a long-form table without a "Feature" column
    loads, and a complete long-form table whose Status column holds
    numbers does not. *)
Lemma startup_long_form_unchecked :
  (has_column long_without_feature (lit "Feature") = false
   /\ fst (startup long_without_feature) = Returns tt)
  /\ (has_column long_numeric_status (lit "Feature") = true
      /\ has_column long_numeric_status (lit "Competitor") = true
      /\ has_column long_numeric_status (lit "Status") = true
      /\ fst (startup long_numeric_status) = Raises AttributeError).
Proof. repeat split. Qed.

(** C6: reshaping a wide table with F rows and C competitor columns gives
    F x C records; the record at place j * F + a is the one of row a and
    competitor column j, so every cell of the input gives exactly one
    record; and every Status is one of the four statuses. *)
Theorem melt_records (t : DataFrame) (i : nat) :
  long_form t = false ->
  has_column t (lit "Notes") = false ->
  col_index (lit "Feature") (columns t) = Some i ->
  exists st,
    startup t = (Returns tt, st)
    /\ columns (dataset st)
       = [lit "Feature"; lit "Competitor"; lit "Notes"; lit "Status"]
    /\ List.length (rows (dataset st))
       = List.length (rows t) * List.length (competitor_columns t)
    /\ (forall j a,
          j < List.length (competitor_columns t) ->
          a < List.length (rows t) ->
          nth (j * List.length (rows t) + a) (rows (dataset st)) []
          = comparison_record i (nth j (competitor_columns t) (0, []))
                              (nth a (rows t) []))
    /\ Forall (fun row => In (cell 3 row) (map VStr statuses))
              (rows (dataset st))
    /\ map snd (competitor_columns t)
       = filter (fun c => negb (PyStr.eqb c (lit "Feature"))) (columns t).
Proof.
  intros Hlong Hnotes Hi.
  eexists. split.
  { rewrite (startup_wide t Hlong), Hnotes, Hi. reflexivity. }
  unfold dataset. cbn [frames df nth columns rows].
  split; [reflexivity|]. split.
  { rewrite length_flat_map_map. apply Nat.mul_comm. }
  split.
  { intros j a Hj Ha. apply nth_flat_map_map; assumption. }
  split.
  { apply Forall_forall. intros row Hrow.
    apply in_flat_map in Hrow. destruct Hrow as [jc [_ Hrow]].
    apply in_map_iff in Hrow. destruct Hrow as [ra [<- _]].
    unfold comparison_record, cell. cbn [nth].
    apply in_map. apply to_status_in_statuses. }
  apply value_vars_names.
Qed.


Lemma melt_records_wide_sample :
  exists st,
    startup wide_sample = (Returns tt, st)
    /\ columns (dataset st)
       = [lit "Feature"; lit "Competitor"; lit "Notes"; lit "Status"]
    /\ List.length (rows (dataset st))
       = List.length (rows wide_sample)
         * List.length (competitor_columns wide_sample)
    /\ (forall j a,
          j < List.length (competitor_columns wide_sample) ->
          a < List.length (rows wide_sample) ->
          nth (j * List.length (rows wide_sample) + a) (rows (dataset st)) []
          = comparison_record 0 (nth j (competitor_columns wide_sample) (0, []))
                              (nth a (rows wide_sample) []))
    /\ Forall (fun row => In (cell 3 row) (map VStr statuses))
              (rows (dataset st))
    /\ map snd (competitor_columns wide_sample)
       = filter (fun c => negb (PyStr.eqb c (lit "Feature")))
                (columns wide_sample).
Proof.
  apply (@melt_records wide_sample 0); reflexivity.
Defined.

(** The four records of the sample, in the order [melt] gives them. *)
Example wide_sample_statuses :
  map (cell 3) (rows (dataset (snd (startup wide_sample))))
  = [VStr (lit "partial"); VStr (lit "na"); VStr (lit "yes"); VStr (lit "no")].
Proof. reflexivity. Qed.


(* ================================================================== *)
(** ** The store under the view callback *)

Lemma nth_replace_nth_other {A} (i k : nat) (x d : A) (l : list A) :
  i <> k -> nth i (replace_nth k x l) d = nth i l d.
Proof.
  revert i k; induction l as [|y l IH]; intros i k Hik; [destruct k; reflexivity|].
  destruct k as [|k], i as [|i]; simpl; try reflexivity; try lia.
  apply IH. lia.
Qed.

Lemma is_falsy_chosen (sel : option (list pystr)) :
  is_falsy sel = true <-> chosen sel = [].
Proof.
  destruct sel as [[|x l]|]; simpl; split; congruence.
Qed.

Lemma col_index_valid_ref (c : pystr) (r : ref) (st : store) (k : nat) :
  col_index c (columns (nth r (frames st) empty_frame)) = Some k ->
  r < List.length (frames st).
Proof.
  intros Hk. destruct (Nat.lt_ge_cases r (List.length (frames st))) as [H | H];
    [exact H|].
  rewrite nth_overflow in Hk by exact H. discriminate.
Qed.

(** The frames that were in the store before the callback are the same
    after it, whatever it returns or raises. *)
Lemma render_view_old_frames (competitors features : option (list pystr))
    (mode : pystr) (st : store) (i : nat) :
  i < List.length (frames st) ->
  nth i (frames (snd (render_view competitors features mode st))) empty_frame
  = nth i (frames st) empty_frame.
Proof.
  intros Hi. unfold render_view.
  destruct (is_falsy competitors || is_falsy features); [reflexivity|].
  run_step. run_step.
  destruct (col_index (lit "Competitor") (columns (nth (df st) (frames st) empty_frame)));
    [|reflexivity].
  run_step.
  destruct (col_index (lit "Feature") (columns (nth (df st) (frames st) empty_frame)));
    [|reflexivity].
  run_step. run_step. cbn [frames df].
  assert (Hkeep : forall a b,
             nth i ((frames st ++ [a]) ++ [b]) empty_frame
             = nth i (frames st) empty_frame).
  { intros a b. rewrite app_nth1 by (rewrite length_app; lia).
    apply app_nth1. exact Hi. }
  destruct (PyStr.eqb mode (lit "table")).
  - run_step. cbn [frames df].
    match goal with
    | |- context [pivot_frame ?d ?a ?b ?c] => destruct (pivot_frame d a b c)
    end; cbn [ret raise snd frames]; apply Hkeep.
  - run_step. cbn [frames df].
    match goal with
    | |- context [col_index ?c ?cols] => destruct (col_index c cols)
    end; [|cbn [ret raise snd frames]; apply Hkeep].
    run_step. run_step. cbn [frames df].
    match goal with
    | |- context [pivot_frame ?d ?a ?b ?c] => destruct (pivot_frame d a b c)
    end; cbn [ret raise snd frames];
      (rewrite nth_replace_nth_other by (rewrite length_app; simpl; lia));
      apply Hkeep.
Qed.

Lemma render_view_df (competitors features : option (list pystr))
    (mode : pystr) (st : store) :
  df (snd (render_view competitors features mode st)) = df st.
Proof.
  unfold render_view.
  destruct (is_falsy competitors || is_falsy features); [reflexivity|].
  run_step. run_step.
  destruct (col_index (lit "Competitor") (columns (nth (df st) (frames st) empty_frame)));
    [|reflexivity].
  run_step.
  destruct (col_index (lit "Feature") (columns (nth (df st) (frames st) empty_frame)));
    [|reflexivity].
  run_step. run_step. cbn [frames df].
  destruct (PyStr.eqb mode (lit "table")).
  - run_step. cbn [frames df].
    match goal with
    | |- context [pivot_frame ?d ?a ?b ?c] => destruct (pivot_frame d a b c)
    end; reflexivity.
  - run_step. cbn [frames df].
    match goal with
    | |- context [col_index ?c ?cols] => destruct (col_index c cols)
    end; [|reflexivity].
    run_step. run_step. cbn [frames df].
    match goal with
    | |- context [pivot_frame ?d ?a ?b ?c] => destruct (pivot_frame d a b c)
    end; reflexivity.
Qed.

Lemma render_view_dangling (competitors features : option (list pystr))
    (mode : pystr) (st : store) :
  List.length (frames st) <= df st ->
  snd (render_view competitors features mode st) = st.
Proof.
  intros Hd. unfold render_view.
  destruct (is_falsy competitors || is_falsy features); [reflexivity|].
  run_step. run_step. rewrite nth_overflow by exact Hd. reflexivity.
Qed.

(* ================================================================== *)
(** ** Claims on the view callback *)

(** C7: when the competitor selection or the feature selection is empty,
    the callback returns the prompt and nothing else happens: no frame is
    read, filtered or made. *)
Theorem render_view_nothing_selected (competitors features : option (list pystr))
    (mode : pystr) (st : store) :
  chosen competitors = [] \/ chosen features = [] ->
  render_view competitors features mode st
  = (Returns (Div (lit "Please select at least one competitor and one feature.")),
     st).
Proof.
  intros H. unfold render_view.
  replace (is_falsy competitors || is_falsy features) with true; [reflexivity|].
  symmetry. apply orb_true_iff.
  destruct H as [H | H]; [left | right]; apply is_falsy_chosen; exact H.
Qed.

Lemma render_view_no_competitor_selected :
  render_view (Some []) (Some [lit "SSO"]) (lit "table")
              {| frames := [long_sample]; df := 0 |}
  = (Returns (Div (lit "Please select at least one competitor and one feature.")),
     {| frames := [long_sample]; df := 0 |}).
Proof.
  apply render_view_nothing_selected. left. reflexivity.
Defined.

(** C9: rendering a view, in either mode and for any selection, leaves
    the dataset as it was: the name [df] still refers to the same frame,
    every frame that was in the store is unchanged, and so are the
    dataset's rows, its Status column and its row count. *)
Theorem render_view_keeps_dataset (competitors features : option (list pystr))
    (mode : pystr) (st : store) :
  df (snd (render_view competitors features mode st)) = df st
  /\ (forall i, i < List.length (frames st) ->
        nth i (frames (snd (render_view competitors features mode st))) empty_frame
        = nth i (frames st) empty_frame)
  /\ dataset (snd (render_view competitors features mode st)) = dataset st
  /\ column (dataset (snd (render_view competitors features mode st))) (lit "Status")
     = column (dataset st) (lit "Status")
  /\ List.length (rows (dataset (snd (render_view competitors features mode st))))
     = List.length (rows (dataset st)).
Proof.
  assert (Hd : dataset (snd (render_view competitors features mode st)) = dataset st).
  { destruct (Nat.lt_ge_cases (df st) (List.length (frames st))) as [H | H].
    - unfold dataset. rewrite render_view_df.
      apply render_view_old_frames. exact H.
    - rewrite render_view_dangling by exact H. reflexivity. }
  split; [apply render_view_df|].
  split; [intros i Hi; apply render_view_old_frames; exact Hi|].
  rewrite Hd. repeat split.
Qed.

(** The heatmap does write to the store: it makes two frames, and the
    score column goes to the copy. *)
Example render_view_heatmap_store :
  let st := snd (startup long_sample) in
  let st' := snd (render_view (Some [lit "Acme"]) (Some [lit "SSO"]) (lit "heatmap") st) in
  List.length (frames st) = 1
  /\ List.length (frames st') = 3
  /\ columns (nth 2 (frames st') empty_frame)
     = [lit "Feature"; lit "Competitor"; lit "Status"; lit "score"]
  /\ columns (dataset st') = [lit "Feature"; lit "Competitor"; lit "Status"].
Proof. repeat split. Qed.

(* ================================================================== *)
(** ** Labels and cross-tabs *)

Lemma pyval_eqb_true (a b : pyval) : pyval_eqb a b = true -> a = b.
Proof.
  destruct a, b; simpl; try discriminate; intros H.
  - apply pystr_eqb_eq in H. congruence.
  - reflexivity.
  - apply Z.eqb_eq in H. congruence.
  - apply Bool.eqb_prop in H. congruence.
  - apply pystr_eqb_eq in H. congruence.
Qed.

Lemma pyval_eqb_str (s : pystr) : pyval_eqb (VStr s) (VStr s) = true.
Proof. apply pystr_eqb_refl. Qed.

Lemma same_key_true (f c : pyval) (x : record) :
  same_key f c x = true -> r_index x = f /\ r_column x = c.
Proof.
  unfold same_key. rewrite andb_true_iff.
  intros [H1 H2]. split; apply pyval_eqb_true; assumption.
Qed.

Lemma label_index_some (l : pyval) (labels : list pyval) (k : nat) (d : pyval) :
  label_index l labels = Some k ->
  k < List.length labels /\ nth k labels d = l.
Proof.
  revert k; induction labels as [|l' labels IH]; intros k; simpl; [discriminate|].
  destruct (pyval_eqb l' l) eqn:E.
  - intros H; injection H as <-. split; [lia|]. apply pyval_eqb_true; exact E.
  - destruct (label_index l labels) as [k'|]; simpl; [|discriminate].
    intros H; injection H as <-. destruct (IH k' eq_refl) as [H1 H2].
    split; [lia | exact H2].
Qed.

Lemma label_index_none (s : pystr) (labels : list pyval) :
  label_index (VStr s) labels = None -> ~ In (VStr s) labels.
Proof.
  induction labels as [|l' labels IH]; simpl; [tauto|].
  destruct (pyval_eqb l' (VStr s)) eqn:E; [discriminate|].
  destruct (label_index (VStr s) labels); simpl; [discriminate|].
  intros _ [H | H].
  - subst l'. rewrite pyval_eqb_str in E. discriminate.
  - exact (IH eq_refl H).
Qed.

Lemma in_dedup (x : pyval) (l : list pyval) : In x l -> In x (dedup l).
Proof.
  induction l as [|y l IH]; simpl; [tauto|].
  intros [H | H]; [left; exact H|].
  destruct (pyval_eqb y x) eqn:E.
  - left. apply pyval_eqb_true; exact E.
  - right. apply filter_In. split; [apply IH; exact H|]. rewrite E. reflexivity.
Qed.

Lemma first_null_or_value (g : list pyval) :
  first g = VNaN \/ (notnull (first g) = true /\ In (first g) g).
Proof.
  unfold first. destruct (filter notnull g) as [|v g'] eqn:E; [left; reflexivity|].
  right. simpl. assert (H : In v (filter notnull g)) by (rewrite E; left; reflexivity).
  apply filter_In in H. tauto.
Qed.

(** A pair of text labels that has a value in its group is among the
    groups the cross-tab keeps. *)
Lemma first_value_kept (recs : list record) (f c : pystr) :
  first (group recs (VStr f) (VStr c)) <> VNaN ->
  In (VStr f) (dedup (map r_index (kept recs)))
  /\ In (VStr c) (dedup (map r_column (kept recs))).
Proof.
  intros Hv.
  destruct (first_null_or_value (group recs (VStr f) (VStr c))) as [H | [Hn Hin]];
    [contradiction|].
  unfold group in Hin. apply in_map_iff in Hin. destruct Hin as [x [_ Hx]].
  apply filter_In in Hx. destruct Hx as [Hx Hkey].
  destruct (same_key_true _ _ _ Hkey) as [Hf Hc].
  assert (Hk : In x (kept recs)).
  { unfold kept. apply filter_In. split; [exact Hx|].
    rewrite Hf, Hc, Hn. reflexivity. }
  split; apply in_dedup.
  - rewrite <- Hf. apply in_map. exact Hk.
  - rewrite <- Hc. apply in_map. exact Hk.
Qed.

Lemma nth_nan_row {A} (k : nat) (l : list A) :
  cell k (map (fun _ => VNaN) l) = VNaN.
Proof.
  unfold cell. revert k; induction l as [|x l IH]; intros [|k]; simpl; auto.
Qed.

(** The cross-tab after the two reindexings: the cell of feature [f] and
    competitor [c] is the first value of their group, NaN when the group
    has none. *)
Lemma reindexed_pivot_values (recs : list record) (fs cs : list pystr) :
  pvalues (reindex_columns (reindex_rows (pivot_of recs) fs) cs)
  = map (fun f => map (fun c => first (group recs (VStr f) (VStr c))) cs) fs.
Proof.
  unfold reindex_columns, reindex_rows, pivot_of. cbn [pvalues pcolumns index].
  rewrite map_map. apply map_ext. intros f. apply map_ext. intros c.
  set (idx := dedup (map r_index (kept recs))).
  set (cols := dedup (map r_column (kept recs))).
  assert (Habsent : (~ In (VStr f) idx \/ ~ In (VStr c) cols) ->
                    first (group recs (VStr f) (VStr c)) = VNaN).
  { intros Hno.
    destruct (first_null_or_value (group recs (VStr f) (VStr c))) as [H | [Hn _]];
      [exact H|].
    assert (Hv : first (group recs (VStr f) (VStr c)) <> VNaN).
    { intros E. rewrite E in Hn. discriminate. }
    destruct (first_value_kept recs f c Hv) as [H1 H2]. tauto. }
  destruct (label_index (VStr c) cols) as [k'|] eqn:Ec.
  - destruct (label_index (VStr f) idx) as [k|] eqn:Ef.
    + destruct (label_index_some _ _ VNaN Ef) as [Hk Hf].
      destruct (label_index_some _ _ VNaN Ec) as [Hk' Hc].
      rewrite (nth_map_in_range _ idx [] VNaN Hk). rewrite Hf.
      unfold cell. rewrite (nth_map_in_range _ cols VNaN VNaN Hk'). rewrite Hc.
      reflexivity.
    + rewrite nth_nan_row. symmetry. apply Habsent. left.
      apply label_index_none. exact Ef.
  - symmetry. apply Habsent. right. apply label_index_none. exact Ec.
Qed.

Lemma reindexed_pivot (recs : list record) (fs cs : list pystr) :
  reindex_columns (reindex_rows (pivot_of recs) fs) cs
  = {| index := map VStr fs;
       pcolumns := map VStr cs;
       pvalues := map (fun f => map (fun c => first (group recs (VStr f) (VStr c))) cs) fs |}.
Proof.
  rewrite <- reindexed_pivot_values. reflexivity.
Qed.

(* ================================================================== *)
(** ** Filtering and grouping *)

Lemma select_rows_filter (p q : list pyval -> bool) (rs : list (list pyval)) :
  select_rows rs (and_mask (map p rs) (map q rs))
  = filter (fun row => p row && q row) rs.
Proof.
  induction rs as [|row rs IH]; simpl; [reflexivity|].
  rewrite IH. reflexivity.
Qed.

Lemma filter_map_swap {A B} (p : B -> bool) (g : A -> B) (l : list A) :
  filter p (map g l) = map g (filter (fun x => p (g x)) l).
Proof.
  induction l as [|x l IH]; simpl; [reflexivity|].
  destruct (p (g x)); simpl; rewrite IH; reflexivity.
Qed.

Lemma filter_filter_implied {A} (p q : A -> bool) (l : list A) :
  (forall x, p x = true -> q x = true) ->
  filter p (filter q l) = filter p l.
Proof.
  intros Himp. induction l as [|x l IH]; simpl; [reflexivity|].
  destruct (q x) eqn:Eq; simpl.
  - rewrite IH. reflexivity.
  - destruct (p x) eqn:Ep; [|exact IH].
    rewrite (Himp x Ep) in Eq. discriminate.
Qed.

Lemma filter_filter_andb {A} (p q : A -> bool) (l : list A) :
  filter p (filter q l) = filter (fun x => q x && p x) l.
Proof.
  induction l as [|x l IH]; simpl; [reflexivity|].
  destruct (q x); simpl; [|exact IH].
  destruct (p x); rewrite IH; reflexivity.
Qed.

Lemma filter_all {A} (p : A -> bool) (l : list A) :
  (forall x, In x l -> p x = true) -> filter p l = l.
Proof.
  intros H. induction l as [|x l IH]; simpl; [reflexivity|].
  rewrite (H x) by (left; reflexivity).
  rewrite IH; [reflexivity|]. intros y Hy. apply H. right. exact Hy.
Qed.

Lemma hd_map_filter {A B} (h : A -> B) (q : A -> bool) (l : list A) (d : B) :
  hd d (map h (filter q l))
  = match find q l with
    | Some x => h x
    | None => d
    end.
Proof.
  induction l as [|x l IH]; simpl; [reflexivity|].
  destruct (q x); [reflexivity | exact IH].
Qed.

Lemma zip_map {A B C} (g : A -> B) (h : A -> C) (l : list A) :
  zip (map g l) (map h l) = map (fun x => (g x, h x)) l.
Proof.
  induction l as [|x l IH]; simpl; [reflexivity | rewrite IH; reflexivity].
Qed.

Lemma existsb_eqb_in (s : pystr) (l : list pystr) :
  In s l -> existsb (PyStr.eqb s) l = true.
Proof.
  intros H. apply existsb_exists. exists s. split; [exact H|].
  apply pystr_eqb_refl.
Qed.

Lemma insert_sorted_in (x y : pystr) (l : list pystr) :
  In y (insert_sorted x l) -> y = x \/ In y l.
Proof.
  induction l as [|z l IH]; simpl.
  - intros [H | []]. left. symmetry. exact H.
  - destruct (PyStr.leb x z); simpl.
    + intros [H | H]; [left; symmetry; exact H | right; exact H].
    + intros [H | H]; [right; left; exact H|].
      destruct (IH H) as [H' | H']; [left; exact H' | right; right; exact H'].
Qed.

Lemma sorted_in (y : pystr) (l : list pystr) : In y (sorted l) -> In y l.
Proof.
  unfold sorted. induction l as [|x l IH]; simpl; [tauto|].
  intros H. destruct (insert_sorted_in _ _ _ H) as [H' | H'].
  - left. symmetry. exact H'.
  - right. apply IH. exact H'.
Qed.

(** The rows the selection drops belong to no selected pair: the group of
    a selected pair is the same in the filtered frame and in the dataset. *)
Lemma group_selected (kf kc : nat) (val : list pyval -> pyval)
    (rs : list (list pyval)) (cs fs : list pystr) (f c : pystr) :
  In f fs -> In c cs ->
  group (map (fun row => (cell kf row, cell kc row, val row))
             (filter (fun row => is_in cs (cell kc row) && is_in fs (cell kf row)) rs))
        (VStr f) (VStr c)
  = group (map (fun row => (cell kf row, cell kc row, val row)) rs)
          (VStr f) (VStr c).
Proof.
  intros Hf Hc. unfold group. rewrite !filter_map_swap.
  rewrite filter_filter_implied; [reflexivity|].
  intros row Hkey. destruct (same_key_true _ _ _ Hkey) as [H1 H2].
  unfold r_index, r_column in H1, H2. cbn [fst snd] in H1, H2.
  rewrite H1, H2. simpl.
  rewrite (existsb_eqb_in _ _ Hc), (existsb_eqb_in _ _ Hf). reflexivity.
Qed.

(** [aggfunc="first"] on the Status of a pair. *)
Lemma first_group_status_cell (recs : list record) (f c : pystr) :
  first (group recs (VStr f) (VStr c)) = status_cell recs f c.
Proof.
  unfold first, group, status_cell.
  rewrite filter_map_swap, filter_filter_andb. apply hd_map_filter.
Qed.

(** [aggfunc="first"] on the score of a pair: every score is a number, so
    it is the score of the pair's first record. *)
Lemma first_group_score_cell (recs : list record) (f c : pystr) :
  first (group (map (fun x => (r_index x, r_column x, VInt (score (r_value x)))) recs)
               (VStr f) (VStr c))
  = score_cell recs f c.
Proof.
  unfold first, group, score_cell.
  rewrite (filter_map_swap (same_key (VStr f) (VStr c))), map_map.
  rewrite filter_all.
  - apply (hd_map_filter (fun x => VInt (score (r_value x)))).
  - intros v Hv. apply in_map_iff in Hv. destruct Hv as [x [<- _]]. reflexivity.
Qed.

(** Line 107: the score of a Status through [score_map], 0 when the map
    has no such key. *)
Lemma score_map_fillna (v : pyval) :
  (if isnull (map_dict score_map v) then VInt 0 else map_dict score_map v)
  = VInt (score v).
Proof.
  destruct v as [s| | | | |]; try reflexivity.
  unfold map_dict, score_map, score, dict_get. cbn [pyval_eqb].
  destruct (PyStr.eqb (lit "yes") s) eqn:E1.
  { apply pystr_eqb_eq in E1. subst s. reflexivity. }
  assert (N1 : PyStr.eqb s (lit "yes") = false).
  { apply pystr_eqb_neq. apply pystr_eqb_neq in E1. congruence. }
  rewrite N1.
  destruct (PyStr.eqb (lit "partial") s) eqn:E2.
  { apply pystr_eqb_eq in E2. subst s. reflexivity. }
  assert (N2 : PyStr.eqb s (lit "partial") = false).
  { apply pystr_eqb_neq. apply pystr_eqb_neq in E2. congruence. }
  rewrite N2.
  destruct (PyStr.eqb (lit "no") s) eqn:E3.
  { apply pystr_eqb_eq in E3. subst s. reflexivity. }
  assert (N3 : PyStr.eqb s (lit "no") = false).
  { apply pystr_eqb_neq. apply pystr_eqb_neq in E3. congruence. }
  rewrite N3.
  destruct (PyStr.eqb (lit "na") s); reflexivity.
Qed.

(* ================================================================== *)
(** ** What the view callback returns *)

Lemma is_falsy_nonempty (l : list pystr) : l <> [] -> is_falsy (Some l) = false.
Proof. destruct l; [congruence | reflexivity]. Qed.

Lemma records_cells (d : DataFrame) (kf kc ks : nat) :
  col_index (lit "Feature") (columns d) = Some kf ->
  col_index (lit "Competitor") (columns d) = Some kc ->
  col_index (lit "Status") (columns d) = Some ks ->
  records d = map (fun row => (cell kf row, cell kc row, cell ks row)) (rows d).
Proof.
  intros Hf Hc Hs. unfold records, cell_of. rewrite Hf, Hc, Hs. reflexivity.
Qed.

(** The frame the callback works on after line 78: the rows of the
    dataset whose competitor and feature are selected. *)
Lemma selected_rows (kf kc : nat) (rs : list (list pyval)) (cs fs : list pystr) :
  select_rows rs (and_mask (isin (map (cell kc) rs) cs) (isin (map (cell kf) rs) fs))
  = filter (fun row => is_in cs (cell kc row) && is_in fs (cell kf row)) rs.
Proof.
  unfold isin. rewrite !map_map.
  apply (select_rows_filter (fun row => is_in cs (cell kc row))
                            (fun row => is_in fs (cell kf row))).
Qed.

(** Table mode, for a selection that is not empty and a dataset with the
    three columns. *)
Lemma render_view_table_run (cs fs : list pystr) (st : store) (kf kc ks : nat) :
  cs <> [] -> fs <> [] ->
  col_index (lit "Feature") (columns (dataset st)) = Some kf ->
  col_index (lit "Competitor") (columns (dataset st)) = Some kc ->
  col_index (lit "Status") (columns (dataset st)) = Some ks ->
  fst (render_view (Some cs) (Some fs) (lit "table") st)
  = Returns
      (DataTable
         (VStr (lit "Feature") :: map VStr (sorted cs))
         (map (fun f =>
                 row_dict (map VStr (sorted cs)) (VStr f)
                   (map (fun c => status_cell (records (dataset st)) f c) (sorted cs)))
              (sorted fs))).
Proof.
  intros Hcs Hfs Hf Hc Hs.
  rewrite (records_cells _ Hf Hc Hs).
  unfold dataset in *. unfold render_view.
  rewrite (is_falsy_nonempty Hcs), (is_falsy_nonempty Hfs). cbn [orb chosen].
  run_step. run_step. rewrite Hc. cbv beta iota.
  run_step. rewrite Hf. cbv beta iota.
  run_step. run_step. cbn [frames df].
  replace (PyStr.eqb (lit "table") (lit "table")) with true by reflexivity.
  run_step. cbn [frames df].
  rewrite !nth_middle.
  unfold pivot_frame. cbn [columns rows]. rewrite Hs, Hf, Hc.
  unfold ret. cbn [fst]. rewrite reindexed_pivot. cbn [index pcolumns pvalues].
  do 2 f_equal. rewrite zip_map, map_map.
  apply map_ext_in. intros f Hfin. cbn [fst snd]. f_equal.
  apply map_ext_in. intros c Hcin.
  rewrite selected_rows.
  rewrite (@group_selected kf kc (cell ks) _ cs fs f c
             (sorted_in _ _ Hfin) (sorted_in _ _ Hcin)).
  apply first_group_status_cell.
Qed.

Lemma col_index_lt (c : pystr) (cols : list pystr) (i : nat) :
  col_index c cols = Some i -> i < List.length cols.
Proof.
  revert i; induction cols as [|c' cols IH]; intros i; simpl; [discriminate|].
  destruct (PyStr.eqb c c').
  - intros H; injection H as <-. lia.
  - destruct (col_index c cols) as [k|]; simpl; [|discriminate].
    intros H; injection H as <-. specialize (IH k eq_refl). lia.
Qed.

Lemma col_index_nth (c : pystr) (cols : list pystr) (i : nat) :
  col_index c cols = Some i -> nth i cols [] = c.
Proof.
  revert i; induction cols as [|c' cols IH]; intros i; simpl; [discriminate|].
  destruct (PyStr.eqb c c') eqn:E.
  - intros H; injection H as <-. symmetry. apply pystr_eqb_eq. exact E.
  - destruct (col_index c cols) as [k|]; simpl; [|discriminate].
    intros H; injection H as <-. apply IH. reflexivity.
Qed.

Lemma col_index_app (c : pystr) (cols more : list pystr) (i : nat) :
  col_index c cols = Some i -> col_index c (cols ++ more) = Some i.
Proof.
  revert i; induction cols as [|c' cols IH]; intros i; simpl; [discriminate|].
  destruct (PyStr.eqb c c'); [tauto|].
  destruct (col_index c cols) as [k|]; simpl; [|discriminate].
  intros H; injection H as <-. rewrite (IH k eq_refl). reflexivity.
Qed.

Lemma col_index_app_new (c : pystr) (cols : list pystr) :
  col_index c cols = None -> col_index c (cols ++ [c]) = Some (List.length cols).
Proof.
  induction cols as [|c' cols IH]; simpl.
  - intros _. rewrite pystr_eqb_refl. reflexivity.
  - destruct (PyStr.eqb c c'); [discriminate|].
    destruct (col_index c cols); simpl; [discriminate|].
    intros _. rewrite IH by reflexivity. reflexivity.
Qed.

Lemma nth_replace_nth_same {A} (k : nat) (x d : A) (l : list A) :
  k < List.length l -> nth k (replace_nth k x l) d = x.
Proof.
  revert k; induction l as [|y l IH]; intros k Hk; simpl in Hk; [lia|].
  destruct k as [|k]; simpl; [reflexivity|]. apply IH. lia.
Qed.

Lemma rectangular_filter (d : DataFrame) (p : list pyval -> bool) :
  rectangular d ->
  rectangular {| columns := columns d; rows := filter p (rows d) |}.
Proof.
  unfold rectangular. cbn [columns rows]. rewrite !Forall_forall.
  intros H row Hrow. apply filter_In in Hrow. apply H. tauto.
Qed.

(** Lines 107-108 on a frame: once the score column is assigned, the
    cross-tab of the scores is that of the rows with the assigned values. *)
Lemma pivot_frame_score (d : DataFrame) (kf kc : nat) (h : list pyval -> pyval) :
  rectangular d ->
  col_index (lit "Feature") (columns d) = Some kf ->
  col_index (lit "Competitor") (columns d) = Some kc ->
  pivot_frame (set_column d (lit "score") (map h (rows d)))
              (lit "Feature") (lit "Competitor") (lit "score")
  = Returns (pivot_of (map (fun row => (cell kf row, cell kc row, h row)) (rows d))).
Proof.
  intros Hrect Hf Hc. unfold rectangular in Hrect. rewrite Forall_forall in Hrect.
  pose proof (col_index_lt _ _ Hf) as Lf. pose proof (col_index_lt _ _ Hc) as Lc.
  unfold set_column.
  destruct (col_index (lit "score") (columns d)) as [i|] eqn:Hi.
  - assert (Nf : kf <> i).
    { intros ->. pose proof (col_index_nth _ _ Hf) as E1.
      rewrite (col_index_nth _ _ Hi) in E1. discriminate E1. }
    assert (Nc : kc <> i).
    { intros ->. pose proof (col_index_nth _ _ Hc) as E1.
      rewrite (col_index_nth _ _ Hi) in E1. discriminate E1. }
    pose proof (col_index_lt _ _ Hi) as Li.
    unfold pivot_frame. cbn [columns rows]. rewrite Hi, Hf, Hc.
    rewrite (zip_rows_map (fun row v => replace_nth i v row) h), map_map.
    do 2 f_equal. apply map_ext_in. intros row Hrow.
    unfold cell. rewrite !nth_replace_nth_other by assumption.
    rewrite nth_replace_nth_same by (rewrite (Hrect row Hrow); exact Li).
    reflexivity.
  - unfold pivot_frame. cbn [columns rows].
    rewrite (col_index_app_new _ _ Hi).
    rewrite (col_index_app _ _ [lit "score"] Hf), (col_index_app _ _ [lit "score"] Hc).
    rewrite (zip_rows_map (fun row v => row ++ [v]) h), map_map.
    do 2 f_equal. apply map_ext_in. intros row Hrow.
    unfold cell. rewrite !app_nth1 by (rewrite (Hrect row Hrow); assumption).
    rewrite <- (Hrect row Hrow). rewrite nth_middle. reflexivity.
Qed.

(** Heatmap mode, for a selection that is not empty and a rectangular
    dataset with the three columns. *)
Lemma render_view_heatmap_run (cs fs : list pystr) (mode : pystr) (st : store)
    (kf kc ks : nat) :
  cs <> [] -> fs <> [] -> mode <> lit "table" ->
  rectangular (dataset st) ->
  col_index (lit "Feature") (columns (dataset st)) = Some kf ->
  col_index (lit "Competitor") (columns (dataset st)) = Some kc ->
  col_index (lit "Status") (columns (dataset st)) = Some ks ->
  fst (render_view (Some cs) (Some fs) mode st)
  = Returns
      (Graph
         {| index := map VStr (sorted fs);
            pcolumns := map VStr (sorted cs);
            pvalues :=
              map (fun f => map (fun c => score_cell (records (dataset st)) f c)
                                (sorted cs))
                  (sorted fs) |}).
Proof.
  intros Hcs Hfs Hmode Hrect Hf Hc Hs.
  rewrite (records_cells _ Hf Hc Hs).
  unfold dataset in *. unfold render_view.
  rewrite (is_falsy_nonempty Hcs), (is_falsy_nonempty Hfs). cbn [orb chosen].
  run_step. run_step. rewrite Hc. cbv beta iota.
  run_step. rewrite Hf. cbv beta iota.
  run_step. run_step. cbn [frames df].
  apply pystr_eqb_neq in Hmode. rewrite Hmode.
  run_step. cbn [frames df]. rewrite !nth_middle. cbn [columns rows].
  rewrite Hs. cbv beta iota.
  run_step. run_step. cbn [frames df].
  rewrite nth_replace_nth_same
    by (rewrite !length_app; simpl; lia).
  rewrite !nth_middle. rewrite selected_rows.
  set (keep := fun row => is_in cs (cell kc row) && is_in fs (cell kf row)).
  set (d := nth (df st) (frames st) empty_frame) in *.
  replace (fillna (VInt 0) (map (map_dict score_map) (map (cell ks) (filter keep (rows d)))))
    with (map (fun row => VInt (score (cell ks row)))
              (rows {| columns := columns d; rows := filter keep (rows d) |})).
  2:{ unfold fillna. cbn [rows]. rewrite !map_map. apply map_ext. intros row.
      symmetry. apply score_map_fillna. }
  rewrite (pivot_frame_score (fun row => VInt (score (cell ks row)))
             (rectangular_filter keep Hrect) Hf Hc).
  cbn [rows]. unfold ret. cbn [fst]. rewrite reindexed_pivot.
  do 3 f_equal.
  apply map_ext_in. intros f Hfin. apply map_ext_in. intros c Hcin.
  unfold keep.
  rewrite (@group_selected kf kc (fun row => VInt (score (cell ks row))) _ cs fs f c
             (sorted_in _ _ Hfin) (sorted_in _ _ Hcin)).
  rewrite <- first_group_score_cell. rewrite map_map. reflexivity.
Qed.

Lemma find_first {A} (p : A -> bool) (before after : list A) (x : A) :
  (forall y, In y before -> p y = false) -> p x = true ->
  find p (before ++ x :: after) = Some x.
Proof.
  intros Hb Hx. induction before as [|y before IH]; simpl.
  - rewrite Hx. reflexivity.
  - rewrite (Hb y) by (left; reflexivity). apply IH.
    intros z Hz. apply Hb. right. exact Hz.
Qed.

(* ================================================================== *)
(** ** Claims on the cross-tabs *)

(** C4, as the code has it: in the score grid the cell of a selected
    feature and competitor is the score of the Status of the pair's first
    record, through the table yes 3, partial 2, no 1, na 0, with 0 for any
    other Status; a pair that has no record gets NaN, an empty cell. *)
Theorem heatmap_scores (cs fs : list pystr) (mode : pystr) (st : store) :
  cs <> [] -> fs <> [] -> mode <> lit "table" ->
  rectangular (dataset st) ->
  has_column (dataset st) (lit "Feature") = true ->
  has_column (dataset st) (lit "Competitor") = true ->
  has_column (dataset st) (lit "Status") = true ->
  fst (render_view (Some cs) (Some fs) mode st)
  = Returns
      (Graph
         {| index := map VStr (sorted fs);
            pcolumns := map VStr (sorted cs);
            pvalues :=
              map (fun f => map (fun c => score_cell (records (dataset st)) f c)
                                (sorted cs))
                  (sorted fs) |})
  /\ map score [VStr (lit "yes"); VStr (lit "partial"); VStr (lit "no");
                VStr (lit "na"); VStr (lit "unknown"); VNaN]
     = [3; 2; 1; 0; 0; 0]%Z.
Proof.
  intros Hcs Hfs Hmode Hrect Hf Hc Hs.
  apply has_column_index in Hf, Hc, Hs.
  destruct Hf as [kf Hf], Hc as [kc Hc], Hs as [ks Hs].
  split; [|reflexivity].
  apply (@render_view_heatmap_run cs fs mode st kf kc ks); assumption.
Qed.

Lemma heatmap_scores_long_sample :
  fst (render_view (Some [lit "Acme"; lit "Bolt"]) (Some [lit "SSO"; lit "API"])
                   (lit "heatmap") {| frames := [long_sample]; df := 0 |})
  = Returns
      (Graph
         {| index := map VStr (sorted [lit "SSO"; lit "API"]);
            pcolumns := map VStr (sorted [lit "Acme"; lit "Bolt"]);
            pvalues :=
              map (fun f =>
                     map (fun c =>
                            score_cell
                              (records (dataset {| frames := [long_sample]; df := 0 |}))
                              f c)
                         (sorted [lit "Acme"; lit "Bolt"]))
                  (sorted [lit "SSO"; lit "API"]) |})
  /\ map score [VStr (lit "yes"); VStr (lit "partial"); VStr (lit "no");
                VStr (lit "na"); VStr (lit "unknown"); VNaN]
     = [3; 2; 1; 0; 0; 0]%Z.
Proof.
  apply heatmap_scores; try discriminate; try reflexivity.
  repeat constructor.
Defined.

(** C4 as stated fails: the pairs (API, Acme) and (SSO, Bolt) have no
    record, and their cells are NaN, not 0. *)
Lemma heatmap_missing_pair_is_nan :
  fst (render_view (Some [lit "Acme"; lit "Bolt"]) (Some [lit "SSO"; lit "API"])
                   (lit "heatmap") {| frames := [long_sample]; df := 0 |})
  = Returns
      (Graph
         {| index := [VStr (lit "API"); VStr (lit "SSO")];
            pcolumns := [VStr (lit "Acme"); VStr (lit "Bolt")];
            pvalues := [[VNaN; VInt 3]; [VInt 2; VNaN]] |})
  /\ VNaN <> VInt 0.
Proof. split; [reflexivity | discriminate]. Qed.

(** C5, as the code has it: with [aggfunc="first"] a pair that comes more
    than once is resolved by its first record.  The table cell is the
    Status of the first record of the pair that has one, the score cell
    the score of the pair's first record, whatever records follow. *)
Theorem pivot_first_record_wins (cs fs : list pystr) (st : store) :
  cs <> [] -> fs <> [] ->
  rectangular (dataset st) ->
  has_column (dataset st) (lit "Feature") = true ->
  has_column (dataset st) (lit "Competitor") = true ->
  has_column (dataset st) (lit "Status") = true ->
  fst (render_view (Some cs) (Some fs) (lit "table") st)
  = Returns
      (DataTable
         (VStr (lit "Feature") :: map VStr (sorted cs))
         (map (fun f =>
                 row_dict (map VStr (sorted cs)) (VStr f)
                   (map (fun c => status_cell (records (dataset st)) f c) (sorted cs)))
              (sorted fs)))
  /\ (forall mode, mode <> lit "table" ->
        fst (render_view (Some cs) (Some fs) mode st)
        = Returns
            (Graph
               {| index := map VStr (sorted fs);
                  pcolumns := map VStr (sorted cs);
                  pvalues :=
                    map (fun f => map (fun c => score_cell (records (dataset st)) f c)
                                      (sorted cs))
                        (sorted fs) |}))
  /\ (forall before x after f c,
        records (dataset st) = before ++ x :: after ->
        (forall y, In y before -> same_key (VStr f) (VStr c) y = false) ->
        same_key (VStr f) (VStr c) x = true ->
        score_cell (records (dataset st)) f c = VInt (score (r_value x))
        /\ (notnull (r_value x) = true ->
            status_cell (records (dataset st)) f c = r_value x)).
Proof.
  intros Hcs Hfs Hrect Hf Hc Hs.
  apply has_column_index in Hf, Hc, Hs.
  destruct Hf as [kf Hf], Hc as [kc Hc], Hs as [ks Hs].
  split; [apply (@render_view_table_run cs fs st kf kc ks); assumption|].
  split.
  { intros mode Hmode.
    apply (@render_view_heatmap_run cs fs mode st kf kc ks); assumption. }
  intros before x after f c Hrecs Hbefore Hx. split.
  - unfold score_cell. rewrite Hrecs.
    rewrite find_first; [reflexivity | exact Hbefore | exact Hx].
  - intros Hv. unfold status_cell. rewrite Hrecs.
    rewrite find_first; [reflexivity | | ].
    + intros y Hy. rewrite (Hbefore y Hy). reflexivity.
    + rewrite Hx, Hv. reflexivity.
Qed.

Lemma pivot_first_record_wins_duplicates :
  let cs := [lit "Acme"] in
  let fs := [lit "SSO"] in
  let st := {| frames := [long_duplicates]; df := 0 |} in
  fst (render_view (Some cs) (Some fs) (lit "table") st)
  = Returns
      (DataTable
         (VStr (lit "Feature") :: map VStr (sorted cs))
         (map (fun f =>
                 row_dict (map VStr (sorted cs)) (VStr f)
                   (map (fun c => status_cell (records (dataset st)) f c) (sorted cs)))
              (sorted fs)))
  /\ (forall mode, mode <> lit "table" ->
        fst (render_view (Some cs) (Some fs) mode st)
        = Returns
            (Graph
               {| index := map VStr (sorted fs);
                  pcolumns := map VStr (sorted cs);
                  pvalues :=
                    map (fun f => map (fun c => score_cell (records (dataset st)) f c)
                                      (sorted cs))
                        (sorted fs) |}))
  /\ (forall before x after f c,
        records (dataset st) = before ++ x :: after ->
        (forall y, In y before -> same_key (VStr f) (VStr c) y = false) ->
        same_key (VStr f) (VStr c) x = true ->
        score_cell (records (dataset st)) f c = VInt (score (r_value x))
        /\ (notnull (r_value x) = true ->
            status_cell (records (dataset st)) f c = r_value x)).
Proof.
  apply pivot_first_record_wins; try discriminate; try reflexivity.
  repeat constructor.
Defined.

(** C5 as stated fails: (SSO, Acme) is recorded as partial and later as
    no; the table shows partial and the score grid 2, the first record. *)
Lemma pivot_keeps_first_duplicate :
  map (cell 2) (rows long_duplicates)
  = [VStr (lit "partial"); VStr (lit "yes"); VStr (lit "no")]
  /\ fst (render_view (Some [lit "Acme"]) (Some [lit "SSO"]) (lit "table")
                      {| frames := [long_duplicates]; df := 0 |})
     = Returns
         (DataTable
            [VStr (lit "Feature"); VStr (lit "Acme")]
            [[(VStr (lit "Feature"), VStr (lit "SSO"));
              (VStr (lit "Acme"), VStr (lit "partial"))]])
  /\ fst (render_view (Some [lit "Acme"]) (Some [lit "SSO"]) (lit "heatmap")
                      {| frames := [long_duplicates]; df := 0 |})
     = Returns
         (Graph {| index := [VStr (lit "SSO")];
                   pcolumns := [VStr (lit "Acme")];
                   pvalues := [[VInt 2]] |})
  /\ VStr (lit "partial") <> VStr (lit "no")
  /\ VInt 2 <> VInt (score (VStr (lit "no"))).
Proof. repeat split; discriminate. Qed.

(* ================================================================== *)
(** ** More on the classifier *)

Lemma lower_cp_fixed (c : N) :
  (c < 65 \/ 90 < c)%N ->
  (c < 192 \/ 222 < c \/ c = 215)%N ->
  c <> 304%N -> c <> 376%N -> c <> 7838%N -> c <> 8490%N -> c <> 8491%N ->
  lower_cp c = [c].
Proof.
  intros H1 H2 H3 H4 H5 H6 H7. unfold lower_cp.
  repeat match goal with
         | |- context [if ?b then _ else _] => destruct b eqn:?
         end; try reflexivity; bool_to_prop; lia.
Qed.

(** What [lower_cp] gives is already in lowercase. *)
Lemma lower_cp_lowered (c x : N) : In x (lower_cp c) -> lower_cp x = [x].
Proof.
  unfold lower_cp at 1.
  repeat match goal with
         | |- context [if ?b then _ else _] => destruct b eqn:?
         end; simpl; intros H;
    repeat match goal with
           | H : _ \/ _ |- _ => destruct H
           | H : False |- _ => destruct H
           end;
    bool_to_prop; subst x; apply lower_cp_fixed; lia.
Qed.

Lemma flat_map_fixed {A} (f : A -> list A) (l : list A) :
  (forall x, In x l -> f x = [x]) -> flat_map f l = l.
Proof.
  induction l as [|x l IH]; intros H; simpl; [reflexivity|].
  rewrite (H x) by (left; reflexivity). simpl. f_equal.
  apply IH. intros y Hy. apply H. right. exact Hy.
Qed.

Lemma lower_idempotent (s : pystr) : lower (lower s) = lower s.
Proof.
  unfold lower. induction s as [|c s IH]; simpl; [reflexivity|].
  rewrite flat_map_app, IH. f_equal.
  apply flat_map_fixed. intros x Hx. exact (lower_cp_lowered c x Hx).
Qed.

Lemma occurs_in (p t : pystr) (c : N) : Occurs p t -> In c p -> In c t.
Proof.
  intros [a [b ->]] Hc. apply in_or_app. right. apply in_or_app. left. exact Hc.
Qed.

Lemma letterless_no_n (t : pystr) (c : N) :
  letterless t -> (97 <= c <= 122)%N -> ~ In c t.
Proof.
  unfold letterless. rewrite Forall_forall. intros H Hc Hin.
  specialize (H c Hin). lia.
Qed.

(** A normalized text without letters matches none of the first three
    rules. *)
Lemma letterless_yes (text : pyval) :
  letterless (normalized text) -> to_status text = lit "yes".
Proof.
  intros Hl.
  assert (Hno : forall p c, In c p -> (97 <= c <= 122)%N ->
                            ~ Occurs p (normalized text)).
  { intros p c Hc Hr Ho.
    eapply letterless_no_n; [exact Hl | exact Hr | eapply occurs_in; eassumption]. }
  assert (Hne : forall p c, In c p -> (97 <= c <= 122)%N -> normalized text <> p).
  { intros p c Hc Hr E.
    eapply letterless_no_n; [exact Hl | exact Hr | rewrite E; exact Hc]. }
  destruct (to_status_cases text) as [[H1 E] | [[_ [H2 E]] | [[_ [_ [H3 E]]] | [_ [_ [_ E]]]]]].
  - exfalso. destruct H1 as [H | [H | H]];
      revert H; apply (Hne _ 110%N); try lia; unfold na_misread; simpl; tauto.
  - exfalso. revert H2. apply (Hno _ 110%N); [simpl; tauto | lia].
  - exfalso. destruct H3 as [H | [H | [H | H]]]; revert H.
    + apply (Hno _ 112%N); [simpl; tauto | lia].
    + apply (Hno _ 109%N); [simpl; tauto | lia].
    + apply (Hno _ 108%N); [simpl; tauto | lia].
    + apply (Hno _ 102%N); [simpl; tauto | lia].
  - exact E.
Qed.

Lemma lower_below_A (s : pystr) :
  Forall (fun c => (c < 65)%N) s -> lower s = s.
Proof.
  intros H. unfold lower. apply flat_map_fixed. intros x Hx.
  rewrite Forall_forall in H. specialize (H x Hx).
  apply lower_cp_fixed; lia.
Qed.

Lemma uint_digits (d : Decimal.uint) :
  Forall (fun c => (c < 65)%N) (lit (NilEmpty.string_of_uint d)).
Proof.
  induction d; simpl; constructor; try exact IHd; reflexivity.
Qed.

(** The text of an integer: digits, with a minus sign before them when it
    is negative. *)
Lemma int_text_below_A (z : Z) : Forall (fun c => (c < 65)%N) (str (VInt z)).
Proof.
  unfold str, NilZero.string_of_int.
  destruct (Z.to_int z) as [d | d]; unfold NilZero.string_of_uint.
  - destruct d; try apply uint_digits. repeat constructor.
  - change (lit (String "-" match d with
                            | Decimal.Nil => "0"%string
                            | _ => NilEmpty.string_of_uint d
                            end))
      with (45%N :: lit (match d with
                         | Decimal.Nil => "0"%string
                         | _ => NilEmpty.string_of_uint d
                         end)).
    constructor; [reflexivity|].
    destruct d; try apply uint_digits. repeat constructor.
Qed.

Lemma isspace_fixed (s : pystr) :
  forallb isspace s = true -> lower s = s /\ letterless s.
Proof.
  intros H. rewrite forallb_forall in H. split.
  - unfold lower. apply flat_map_fixed. intros x Hx. specialize (H x Hx).
    unfold isspace in H.
    repeat match goal with
           | H : orb _ _ = true |- _ => apply orb_true_iff in H; destruct H
           end; bool_to_prop; apply lower_cp_fixed; lia.
  - unfold letterless. apply Forall_forall. intros x Hx. specialize (H x Hx).
    unfold isspace in H.
    repeat match goal with
           | H : orb _ _ = true |- _ => apply orb_true_iff in H; destruct H
           end; bool_to_prop; lia.
Qed.

(** X1: [to_status] looks at the text in lowercase only: a text and its
    lowercase form are classified alike. *)
Theorem to_status_ignores_case (s : pystr) :
  to_status (VStr (lower s)) = to_status (VStr s).
Proof.
  unfold to_status. rewrite !normalized_lower. cbn [str].
  rewrite lower_idempotent. reflexivity.
Qed.

(** X2: a cell whose lowercased text has no letter from a to z is classified
    yes: none of the three rules before the default can apply to it. *)
Theorem to_status_letterless (text : pyval) :
  letterless (lower (str text)) -> to_status text = lit "yes".
Proof.
  intros H. apply letterless_yes. rewrite normalized_lower. exact H.
Qed.

Lemma to_status_letterless_sample :
  to_status (VStr (lit "24/7 (+1 555 0100)")) = lit "yes".
Proof.
  apply to_status_letterless.
  repeat constructor; solve [left; reflexivity | right; reflexivity].
Defined.

(** X3: empty and blank text is classified yes: the empty string goes through
    [or ""], and whitespace is neither lowered nor matched. *)
Theorem to_status_blank (s : pystr) :
  forallb isspace s = true -> to_status (VStr s) = lit "yes".
Proof.
  intros H. destruct (isspace_fixed s H) as [Hl Hn].
  apply letterless_yes. rewrite normalized_lower. cbn [str].
  rewrite Hl. exact Hn.
Qed.

Lemma to_status_blank_sample :
  to_status (VStr [32; 9; 160; 10]%N) = lit "yes".
Proof. apply to_status_blank. reflexivity. Defined.

(** X4: a cell that is not text is classified by its printed form, and for an
    integer, a boolean, NaN and None that is always yes. *)
Theorem to_status_not_text (v : pyval) :
  match v with
  | VStr _ | VFloat _ => True
  | _ => to_status v = lit "yes"
  end.
Proof.
  destruct v as [s| | |z|[|]|s]; try exact I; try reflexivity.
  apply letterless_yes. rewrite normalized_lower.
  pose proof (int_text_below_A z) as H.
  rewrite (@lower_below_A _ H).
  unfold letterless. rewrite Forall_forall in *. intros c Hc.
  specialize (H c Hc). lia.
Qed.

(** X5: the third literal of line 19 is never matched: the comparison is made
    on lowercased text and the literal holds two capitals, so even the
    misread spelling itself falls through to yes. *)
Theorem na_misread_never_matches (text : pyval) :
  PyStr.eqb (normalized text) na_misread = false
  /\ (in_tuple (normalized text) [lit "na"; lit "n/a"; na_misread]
      = in_tuple (normalized text) [lit "na"; lit "n/a"])
  /\ to_status (VStr na_misread) = lit "yes".
Proof.
  assert (H : PyStr.eqb (normalized text) na_misread = false).
  { apply pystr_eqb_neq. rewrite normalized_lower. apply lower_not_na_misread. }
  split; [exact H|]. split; [|reflexivity].
  unfold in_tuple. simpl existsb. rewrite H. reflexivity.
Qed.

(* ================================================================== *)
(** ** More on loading *)



Lemma length_replace_nth {A} (i : nat) (x : A) (l : list A) :
  List.length (replace_nth i x l) = List.length l.
Proof.
  revert i; induction l as [|y l IH]; intros [|i]; simpl; try reflexivity.
  rewrite IH. reflexivity.
Qed.

Lemma rectangular_set_column_same (d : DataFrame) (c : pystr)
    (h : list pyval -> pyval) :
  rectangular d -> has_column d c = true ->
  rectangular (set_column d c (map h (rows d))).
Proof.
  intros Hrect Hc. apply has_column_index in Hc. destruct Hc as [i Hi].
  unfold set_column. rewrite Hi. unfold rectangular in *. cbn [columns rows].
  rewrite (zip_rows_map (fun row v => replace_nth i v row) h).
  rewrite Forall_forall in *. intros row Hrow.
  apply in_map_iff in Hrow. destruct Hrow as [row0 [<- Hrow0]].
  rewrite <- (Hrect row0 Hrow0). apply length_replace_nth.
Qed.

Lemma str_method_compose (f g : pystr -> pystr) (v : pyval) :
  str_method f (str_method g v) = str_method (fun s => f (g s)) v.
Proof. destruct v; reflexivity. Qed.

(** The long-form branch as one assignment to the Status column. *)
Lemma startup_long_dataset (t : DataFrame) (st : store) :
  long_form t = true ->
  startup t = (Returns tt, st) ->
  st = {| frames :=
            [set_column t (lit "Status")
               (map (fun row => str_method (fun s => strip (lower s))
                                           (cell_of t (lit "Status") row))
                    (rows t))];
          df := 0 |}
  /\ is_text_column (column t (lit "Status")) = true.
Proof.
  intros Hlong Hrun.
  assert (Hs : has_column t (lit "Status") = true).
  { unfold long_form in Hlong. apply andb_true_iff in Hlong. tauto. }
  apply has_column_index in Hs. destruct Hs as [i Hi].
  rewrite (startup_long t Hlong Hi) in Hrun.
  destruct (is_text_column (column t (lit "Status"))); [|discriminate Hrun].
  split; [|reflexivity]. injection Hrun as <-.
  unfold column, cell_of. rewrite Hi. rewrite !map_map.
  do 3 f_equal. apply map_ext. intros row. apply str_method_compose.
Qed.

(** X6: after a load that succeeds the dataset has the columns
    "Competitor" and "Status"; it has "Feature" as well, except after the
    long-form branch on a table that came without it. *)
Theorem load_dataset_columns (t : DataFrame) (st : store) :
  startup t = (Returns tt, st) ->
  has_column (dataset st) (lit "Competitor") = true
  /\ has_column (dataset st) (lit "Status") = true
  /\ has_column (dataset st) (lit "Feature")
     = (negb (long_form t) || has_column t (lit "Feature")).
Proof.
  intros Hrun. destruct (long_form t) eqn:Hlong.
  - destruct (startup_long_dataset t Hlong Hrun) as [-> _].
    unfold long_form in Hlong. apply andb_true_iff in Hlong.
    destruct Hlong as [Hs Hc].
    unfold dataset. cbn [frames df nth].
    assert (Hcols : forall vals,
               columns (set_column t (lit "Status") vals) = columns t).
    { intros vals. pose proof Hs as H.
      apply has_column_index in H. destruct H as [i Hi].
      unfold set_column. rewrite Hi. reflexivity. }
    unfold has_column. rewrite Hcols. fold (has_column t (lit "Competitor")).
    fold (has_column t (lit "Status")). fold (has_column t (lit "Feature")).
    rewrite Hs, Hc. repeat split.
  - rewrite (startup_wide t Hlong) in Hrun.
    destruct (has_column t (lit "Notes")); [discriminate Hrun|].
    destruct (col_index (lit "Feature") (columns t)); [|discriminate Hrun].
    injection Hrun as <-. repeat split.
Qed.

Lemma load_dataset_columns_long_without_feature :
  has_column (dataset (snd (startup long_without_feature))) (lit "Competitor") = true
  /\ has_column (dataset (snd (startup long_without_feature))) (lit "Status") = true
  /\ has_column (dataset (snd (startup long_without_feature))) (lit "Feature")
     = (negb (long_form long_without_feature)
        || has_column long_without_feature (lit "Feature")).
Proof.
  apply (@load_dataset_columns long_without_feature). reflexivity.
Defined.



(** The raw sample after the load. *)
Example load_long_raw_status :
  column (dataset (snd (startup long_raw))) (lit "Status")
  = [VStr (lit "partial"); VStr (lit "yes"); VNaN].
Proof. reflexivity. Qed.

(* ================================================================== *)
(** ** Trimming and lowercasing twice *)













(* ================================================================== *)
(** ** More on the view callback *)

(** X9: with a selection that is not empty, the callback raises KeyError
    for the first column among "Competitor", "Feature" and "Status" that
    the dataset lacks; for the first two the store is left as it was. *)
Theorem render_view_missing_column (cs fs : list pystr) (mode : pystr) (st : store) :
  cs <> [] -> fs <> [] ->
  (has_column (dataset st) (lit "Competitor") = false ->
     render_view (Some cs) (Some fs) mode st
     = (Raises (KeyError (lit "Competitor")), st))
  /\ (has_column (dataset st) (lit "Competitor") = true ->
      has_column (dataset st) (lit "Feature") = false ->
      render_view (Some cs) (Some fs) mode st
      = (Raises (KeyError (lit "Feature")), st))
  /\ (has_column (dataset st) (lit "Competitor") = true ->
      has_column (dataset st) (lit "Feature") = true ->
      has_column (dataset st) (lit "Status") = false ->
      fst (render_view (Some cs) (Some fs) mode st)
      = Raises (KeyError (lit "Status"))).
Proof.
  intros Hcs Hfs. unfold dataset, has_column.
  split; [|split].
  - intros Hc.
    destruct (col_index (lit "Competitor") (columns (nth (df st) (frames st) empty_frame)))
      eqn:Ec; [discriminate Hc|].
    unfold render_view.
    rewrite (is_falsy_nonempty Hcs), (is_falsy_nonempty Hfs). cbn [orb chosen].
    run_step. run_step. rewrite Ec. reflexivity.
  - intros Hc Hf.
    destruct (col_index (lit "Competitor") (columns (nth (df st) (frames st) empty_frame)))
      eqn:Ec; [|discriminate Hc].
    destruct (col_index (lit "Feature") (columns (nth (df st) (frames st) empty_frame)))
      eqn:Ef; [discriminate Hf|].
    unfold render_view.
    rewrite (is_falsy_nonempty Hcs), (is_falsy_nonempty Hfs). cbn [orb chosen].
    run_step. run_step. rewrite Ec. cbv beta iota.
    run_step. rewrite Ef. reflexivity.
  - intros Hc Hf Hs.
    destruct (col_index (lit "Competitor") (columns (nth (df st) (frames st) empty_frame)))
      eqn:Ec; [|discriminate Hc].
    destruct (col_index (lit "Feature") (columns (nth (df st) (frames st) empty_frame)))
      eqn:Ef; [|discriminate Hf].
    destruct (col_index (lit "Status") (columns (nth (df st) (frames st) empty_frame)))
      eqn:Es; [discriminate Hs|].
    unfold render_view.
    rewrite (is_falsy_nonempty Hcs), (is_falsy_nonempty Hfs). cbn [orb chosen].
    run_step. run_step. rewrite Ec. cbv beta iota.
    run_step. rewrite Ef. cbv beta iota.
    run_step. run_step. cbn [frames df].
    destruct (PyStr.eqb mode (lit "table")).
    + run_step. cbn [frames df]. rewrite !nth_middle.
      unfold pivot_frame. cbn [columns rows]. rewrite Es. reflexivity.
    + run_step. cbn [frames df]. rewrite !nth_middle. cbn [columns rows].
      rewrite Es. reflexivity.
Qed.

Lemma render_view_missing_feature_sample :
  (has_column (dataset (snd (startup long_without_feature))) (lit "Competitor") = false ->
     render_view (Some [lit "Acme"]) (Some [lit "SSO"]) (lit "table")
                 (snd (startup long_without_feature))
     = (Raises (KeyError (lit "Competitor")), snd (startup long_without_feature)))
  /\ (has_column (dataset (snd (startup long_without_feature))) (lit "Competitor") = true ->
      has_column (dataset (snd (startup long_without_feature))) (lit "Feature") = false ->
      render_view (Some [lit "Acme"]) (Some [lit "SSO"]) (lit "table")
                  (snd (startup long_without_feature))
      = (Raises (KeyError (lit "Feature")), snd (startup long_without_feature)))
  /\ (has_column (dataset (snd (startup long_without_feature))) (lit "Competitor") = true ->
      has_column (dataset (snd (startup long_without_feature))) (lit "Feature") = true ->
      has_column (dataset (snd (startup long_without_feature))) (lit "Status") = false ->
      fst (render_view (Some [lit "Acme"]) (Some [lit "SSO"]) (lit "table")
                       (snd (startup long_without_feature)))
      = Raises (KeyError (lit "Status"))).
Proof.
  apply render_view_missing_column; discriminate.
Defined.

(** The table that loads without "Feature" cannot be shown. *)
Example render_view_long_without_feature :
  fst (render_view (Some [lit "Acme"]) (Some [lit "SSO"]) (lit "table")
                   (snd (startup long_without_feature)))
  = Raises (KeyError (lit "Feature")).
Proof. reflexivity. Qed.

(* ================================================================== *)
(** ** Row dicts *)

Lemma pystr_eqb_sym (a b : pystr) : PyStr.eqb a b = PyStr.eqb b a.
Proof.
  destruct (PyStr.eqb b a) eqn:E.
  - apply pystr_eqb_eq in E. subst. apply pystr_eqb_refl.
  - apply pystr_eqb_neq. apply pystr_eqb_neq in E. congruence.
Qed.

Lemma dict_lookup_set_same (c : pystr) (v : pyval) (d : list (pyval * pyval)) :
  dict_lookup (VStr c) (dict_set (VStr c) v d) = Some v.
Proof.
  induction d as [|[k' v'] d IH]; simpl.
  - rewrite pystr_eqb_refl. reflexivity.
  - destruct (pyval_eqb k' (VStr c)) eqn:E; simpl; rewrite E; [reflexivity | exact IH].
Qed.

Lemma dict_lookup_set_other (x c : pystr) (v : pyval) (d : list (pyval * pyval)) :
  PyStr.eqb x c = false ->
  dict_lookup (VStr c) (dict_set (VStr x) v d) = dict_lookup (VStr c) d.
Proof.
  intros Hxc. induction d as [|[k' v'] d IH]; simpl.
  - rewrite Hxc. reflexivity.
  - destruct (pyval_eqb k' (VStr x)) eqn:E; simpl.
    + apply pyval_eqb_true in E. subst k'. simpl. rewrite Hxc. reflexivity.
    + destruct (pyval_eqb k' (VStr c)); [reflexivity | exact IH].
Qed.

(** The entries of a row dict: a column label gets the cell under it when
    the cell is not null, and otherwise keeps what the dict had. *)
Lemma row_dict_fold (g : pystr -> pyval) (l : list pystr) (c : pystr)
    (d : list (pyval * pyval)) :
  dict_lookup (VStr c)
    (fold_left (fun d kv => if notnull (snd kv) then dict_set (fst kv) (snd kv) d else d)
               (zip (map VStr l) (map g l)) d)
  = if existsb (PyStr.eqb c) l && notnull (g c) then Some (g c)
    else dict_lookup (VStr c) d.
Proof.
  revert d; induction l as [|x l IH]; intros d; [reflexivity|].
  cbn [map zip fold_left fst snd existsb]. rewrite IH.
  destruct (existsb (PyStr.eqb c) l && notnull (g c)) eqn:E.
  - rewrite andb_true_iff in E. destruct E as [E1 E2].
    rewrite E1, E2, orb_true_r. reflexivity.
  - destruct (PyStr.eqb c x) eqn:Ecx.
    + apply pystr_eqb_eq in Ecx. subst x.
      destruct (notnull (g c)) eqn:En.
      * rewrite dict_lookup_set_same. reflexivity.
      * rewrite andb_false_r. reflexivity.
    + cbn [orb]. rewrite E.
      destruct (notnull (g x)); [|reflexivity].
      apply dict_lookup_set_other. rewrite pystr_eqb_sym. exact Ecx.
Qed.

Lemma insert_sorted_length (x : pystr) (l : list pystr) :
  List.length (insert_sorted x l) = S (List.length l).
Proof.
  induction l as [|y l IH]; simpl; [reflexivity|].
  destruct (PyStr.leb x y); simpl; [reflexivity | rewrite IH; reflexivity].
Qed.

Lemma sorted_length (l : list pystr) : List.length (sorted l) = List.length l.
Proof.
  unfold sorted. induction l as [|x l IH]; simpl; [reflexivity|].
  rewrite insert_sorted_length, IH. reflexivity.
Qed.

Lemma in_insert_sorted (x y : pystr) (l : list pystr) :
  y = x \/ In y l -> In y (insert_sorted x l).
Proof.
  induction l as [|z l IH]; simpl.
  - intros [H | []]. left. symmetry. exact H.
  - destruct (PyStr.leb x z); simpl.
    + intros [H | [H | H]]; auto.
    + intros [H | [H | H]]; auto.
Qed.

Lemma in_sorted (y : pystr) (l : list pystr) : In y l -> In y (sorted l).
Proof.
  unfold sorted. induction l as [|x l IH]; simpl; [tauto|].
  intros [H | H]; apply in_insert_sorted; [left; symmetry; exact H | right; auto].
Qed.

Lemma existsb_sorted (c : pystr) (l : list pystr) :
  existsb (PyStr.eqb c) (sorted l) = existsb (PyStr.eqb c) l.
Proof.
  destruct (existsb (PyStr.eqb c) l) eqn:E.
  - apply existsb_exists in E. destruct E as [x [Hx Hcx]].
    apply existsb_exists. exists x. split; [apply in_sorted; exact Hx | exact Hcx].
  - destruct (existsb (PyStr.eqb c) (sorted l)) eqn:E'; [|reflexivity].
    apply existsb_exists in E'. destruct E' as [x [Hx Hcx]].
    assert (H : existsb (PyStr.eqb c) l = true).
    { apply existsb_exists. exists x. split; [apply sorted_in; exact Hx | exact Hcx]. }
    congruence.
Qed.

(** X10: the rows of the table.  There is one row per selected feature, in
    sorted order; under a selected competitor it holds the first Status of
    the pair that is not missing, and it has no entry at all for a pair
    without one; its "Feature" entry is the feature, unless a selected
    competitor is itself called "Feature". *)
Theorem table_row_entries (cs fs : list pystr) (st : store) :
  cs <> [] -> fs <> [] ->
  has_column (dataset st) (lit "Feature") = true ->
  has_column (dataset st) (lit "Competitor") = true ->
  has_column (dataset st) (lit "Status") = true ->
  exists data,
    fst (render_view (Some cs) (Some fs) (lit "table") st)
    = Returns (DataTable (VStr (lit "Feature") :: map VStr (sorted cs)) data)
    /\ List.length data = List.length fs
    /\ forall k f,
         nth_error (sorted fs) k = Some f ->
         exists row,
           nth_error data k = Some row
           /\ (forall c, c <> lit "Feature" ->
                 dict_lookup (VStr c) row
                 = if existsb (PyStr.eqb c) cs
                      && notnull (status_cell (records (dataset st)) f c)
                   then Some (status_cell (records (dataset st)) f c)
                   else None)
           /\ (existsb (PyStr.eqb (lit "Feature")) cs = false ->
               dict_lookup (VStr (lit "Feature")) row = Some (VStr f)).
Proof.
  intros Hcs Hfs Hf Hc Hs.
  apply has_column_index in Hf, Hc, Hs.
  destruct Hf as [kf Hf], Hc as [kc Hc], Hs as [ks Hs].
  eexists. split.
  { apply (@render_view_table_run cs fs st kf kc ks); assumption. }
  split.
  { rewrite length_map. apply sorted_length. }
  intros k f Hk. eexists. split.
  { rewrite nth_error_map, Hk. reflexivity. }
  unfold row_dict. split.
  - intros c Hne. rewrite row_dict_fold, existsb_sorted.
    destruct (existsb (PyStr.eqb c) cs
              && notnull (status_cell (records (dataset st)) f c));
      [reflexivity|].
    change (dict_lookup (VStr c) [(VStr (lit "Feature"), VStr f)])
      with (if PyStr.eqb (lit "Feature") c then Some (VStr f) else None).
    replace (PyStr.eqb (lit "Feature") c) with false; [reflexivity|].
    symmetry. apply pystr_eqb_neq. congruence.
  - intros Hno. rewrite row_dict_fold, existsb_sorted, Hno.
    cbn [andb dict_lookup pyval_eqb]. rewrite pystr_eqb_refl. reflexivity.
Qed.

Lemma table_row_entries_duplicates :
  exists data,
    fst (render_view (Some [lit "Bolt"; lit "Acme"]) (Some [lit "SSO"; lit "API"])
                     (lit "table") {| frames := [long_duplicates]; df := 0 |})
    = Returns (DataTable (VStr (lit "Feature")
                            :: map VStr (sorted [lit "Bolt"; lit "Acme"])) data)
    /\ List.length data = List.length [lit "SSO"; lit "API"]
    /\ forall k f,
         nth_error (sorted [lit "SSO"; lit "API"]) k = Some f ->
         exists row,
           nth_error data k = Some row
           /\ (forall c, c <> lit "Feature" ->
                 dict_lookup (VStr c) row
                 = if existsb (PyStr.eqb c) [lit "Bolt"; lit "Acme"]
                      && notnull (status_cell
                                    (records (dataset {| frames := [long_duplicates];
                                                         df := 0 |})) f c)
                   then Some (status_cell
                                (records (dataset {| frames := [long_duplicates];
                                                     df := 0 |})) f c)
                   else None)
           /\ (existsb (PyStr.eqb (lit "Feature")) [lit "Bolt"; lit "Acme"] = false ->
               dict_lookup (VStr (lit "Feature")) row = Some (VStr f)).
Proof.
  apply table_row_entries; try discriminate; reflexivity.
Defined.

(** In the sample, the row of API has an entry for Bolt and none for
    Acme. *)
Example table_rows_duplicates :
  fst (render_view (Some [lit "Bolt"; lit "Acme"]) (Some [lit "SSO"; lit "API"])
                   (lit "table") {| frames := [long_duplicates]; df := 0 |})
  = Returns
      (DataTable
         [VStr (lit "Feature"); VStr (lit "Acme"); VStr (lit "Bolt")]
         [[(VStr (lit "Feature"), VStr (lit "API")); (VStr (lit "Bolt"), VStr (lit "yes"))];
          [(VStr (lit "Feature"), VStr (lit "SSO")); (VStr (lit "Acme"), VStr (lit "partial"))]]).
Proof. reflexivity. Qed.

(* ================================================================== *)
(** ** From the wide table to the view *)








(** The sample on the screen: SSO is partial for Acme and, its cell being
    empty, yes for Bolt; Export is not a feature of the table. *)
Example wide_sample_heatmap :
  fst (render_view (Some [lit "Bolt"; lit "Acme"]) (Some [lit "SSO"; lit "Export"])
                   (lit "heatmap") (snd (startup wide_sample)))
  = Returns
      (Graph {| index := [VStr (lit "Export"); VStr (lit "SSO")];
                pcolumns := [VStr (lit "Acme"); VStr (lit "Bolt")];
                pvalues := [[VNaN; VNaN]; [VInt 2; VInt 3]] |}).
Proof. reflexivity. Qed.

(* ================================================================== *)
(** ** The classifier and the two tables *)

(** X12: whatever the classifier returns is a key of [STATUS_COLOR] and of
    [score_map], so a classified cell always has a colour and never takes
    the default of [fillna]; and the heatmap's list of colours has, at the
    place of the status's score, the colour the table gives that status. *)
Theorem status_has_color_and_score (v : pyval) :
  exists colour z,
    dict_get_str (to_status v) STATUS_COLOR = Some colour
    /\ dict_get (to_status v) score_map = Some z
    /\ map_dict score_map (VStr (to_status v)) = VInt (score (VStr (to_status v)))
    /\ nth_error color_continuous_scale (Z.to_nat z) = Some colour.
Proof.
  destruct (to_status_cases v) as [[_ E] | [[_ [_ E]] | [[_ [_ [_ E]]] | [_ [_ [_ E]]]]]];
    rewrite E; eexists; eexists; repeat split; reflexivity.
Qed.
